(** * letterboxd2notion: the parsers and the TMDB enrichment, embedded in Rocq

    A shallow embedding of [letterboxd2notion/parsers/__init__.py],
    [parsers/html_parser.py] and [parsers/rss_parser.py], and of the URL
    properties of [config.py].

    Conventions of the embedding.
    - A Python [str] is the [string] of its UTF-8 bytes.  [str.strip] and the
      class [\s] of [re] know the white space of Unicode in that encoding.
      The decimal digits of [int], [float] and [\d] are the ASCII ones: a
      text with other digits, or with white space other than ASCII's around
      a number, is rejected here where Python may accept it, and the
      statements that depend on a rejection say that their text is ASCII.
    - A Python [int] is a [Z].  A Python [float] is given by a rational, an
      infinity or a NaN: [Finite q] is the float nearest to [q] (ties to
      even), [q] being within the range of the finite floats.
    - A function that can raise returns a [Result]; [None] is [option]'s.
    - An awaited [client.get] is a call of a function from the request to
      the response: one request, one answer. *)

From Stdlib Require Import ZArith QArith Qabs List String Ascii Bool Lia.
From Stdlib Require Import DecimalString.
Import ListNotations.

Local Open Scope string_scope.
Local Open Scope Z_scope.

#[local] Set Warnings "-register-all".

(** ** Exceptions and the result monad *)

(** The exceptions the three modules raise or let through.  [RateLimitError]
    carries the argument its constructor was called with: [None] is the call
    [RateLimitError()], which leaves the class's own default in place (the
    class is declared in [exceptions.py]). *)
Inductive Exception : Type :=
| RateLimitError (retry_after : option Z)
| ParseError (message : string)
| TMDBError (message : string)
| HTTPStatusError (status : Z)
| ValueError
| OverflowError
| JSONDecodeError
| AttributeError.

Inductive Result (A : Type) : Type :=
| Ok (value : A)
| Raise (e : Exception).

Arguments Ok {A} value.
Arguments Raise {A} e.

Definition bind {A B : Type} (r : Result A) (k : A -> Result B) : Result B :=
  match r with
  | Ok a => k a
  | Raise e => Raise e
  end.

Notation "x <- r ;; k" := (bind r (fun x => k))
  (at level 61, r at next level, right associativity).
Notation "r ;;; k" := (bind r (fun _ => k))
  (at level 61, right associativity).

(** ** Python builtins on strings *)

Module Py.

(** The white space of [str.isspace] that is one byte long. *)
Definition is_space (c : ascii) : bool :=
  let n := nat_of_ascii c in
  ((n =? 32) || ((9 <=? n) && (n <=? 13)) || ((28 <=? n) && (n <=? 31)))%nat.

(** The white space of [str.isspace] that is two and three bytes long:
    U+0085 and U+00A0; U+1680, U+2000 to U+200A, U+2028, U+2029, U+202F,
    U+205F and U+3000. *)
Definition is_space2 (c1 c2 : ascii) : bool :=
  let n2 := nat_of_ascii c2 in
  ((nat_of_ascii c1 =? 194) && ((n2 =? 133) || (n2 =? 160)))%nat.

Definition is_space3 (c1 c2 c3 : ascii) : bool :=
  let n1 := nat_of_ascii c1 in
  let n2 := nat_of_ascii c2 in
  let n3 := nat_of_ascii c3 in
  (((n1 =? 225) && (n2 =? 154) && (n3 =? 128))
   || ((n1 =? 226) && (n2 =? 128)
       && (((128 <=? n3) && (n3 <=? 138)) || (n3 =? 168) || (n3 =? 169) || (n3 =? 175)))
   || ((n1 =? 226) && (n2 =? 129) && (n3 =? 159))
   || ((n1 =? 227) && (n2 =? 128) && (n3 =? 128)))%nat.

(** The white space that [int] and [float] skip around a number in an ASCII
    text: the six characters of C's [isspace]. *)
Definition is_space_c (c : ascii) : bool :=
  let n := nat_of_ascii c in ((n =? 32) || ((9 <=? n) && (n <=? 13)))%nat.

(** A text of ASCII characters. *)
Definition is_ascii (s : string) : bool :=
  forallb (fun c => (nat_of_ascii c <? 128)%nat) (list_ascii_of_string s).

Definition is_digit (c : ascii) : bool :=
  let n := nat_of_ascii c in ((48 <=? n) && (n <=? 57))%nat.

Definition digit_value (c : ascii) : Z := Z.of_nat (nat_of_ascii c) - 48.

Definition lower (c : ascii) : ascii :=
  let n := nat_of_ascii c in
  if ((65 <=? n) && (n <=? 90))%nat then ascii_of_nat (n + 32) else c.

Definition chars (s : string) : list ascii := list_ascii_of_string s.
Definition str (cs : list ascii) : string := string_of_list_ascii cs.

(** [s.lstrip()]: the white space characters at the head are dropped. *)
Fixpoint lstrip (cs : list ascii) : list ascii :=
  match cs with
  | c1 :: r1 =>
      if is_space c1 then lstrip r1
      else match r1 with
           | c2 :: r2 =>
               if is_space2 c1 c2 then lstrip r2
               else match r2 with
                    | c3 :: r3 => if is_space3 c1 c2 c3 then lstrip r3 else cs
                    | [] => cs
                    end
           | [] => cs
           end
  | [] => []
  end.

(** The same on the reversed text, whose characters have their bytes in
    reverse order. *)
Fixpoint lstrip_rev (cs : list ascii) : list ascii :=
  match cs with
  | c1 :: r1 =>
      if is_space c1 then lstrip_rev r1
      else match r1 with
           | c2 :: r2 =>
               if is_space2 c2 c1 then lstrip_rev r2
               else match r2 with
                    | c3 :: r3 => if is_space3 c3 c2 c1 then lstrip_rev r3 else cs
                    | [] => cs
                    end
           | [] => cs
           end
  | [] => []
  end.

(** [s.rstrip()] *)
Definition rstrip (cs : list ascii) : list ascii := rev (lstrip_rev (rev cs)).

(** The white space that [int] and [float] skip. *)
Fixpoint lstrip_c (cs : list ascii) : list ascii :=
  match cs with
  | c :: r => if is_space_c c then lstrip_c r else cs
  | [] => []
  end.

Definition rstrip_c (cs : list ascii) : list ascii := rev (lstrip_c (rev cs)).

(** [s.strip()] *)
Definition strip (s : string) : string := str (rstrip (lstrip (chars s))).

(** [s.startswith(p)] *)
Definition startswith (s p : string) : bool := String.prefix p s.

(** [sub in s] for strings. *)
Fixpoint contains (s sub : string) : bool :=
  String.prefix sub s
  || match s with
     | EmptyString => false
     | String _ r => contains r sub
     end.

(** [s.replace(old, "")] for a non-empty [old]: the occurrences of [old] are
    removed from left to right, without overlap.  [skip] counts the
    characters of the occurrence that is being removed. *)
Fixpoint remove_from (old : string) (skip : nat) (s : string) : string :=
  match s with
  | EmptyString => EmptyString
  | String c r =>
      match skip with
      | S k => remove_from old k r
      | O => if String.prefix old s
             then remove_from old (String.length old - 1) r
             else String c (remove_from old O r)
      end
  end.

Definition remove (s old : string) : string := remove_from old O s.

(** [sep.join(parts)] *)
Fixpoint join (sep : string) (parts : list string) : string :=
  match parts with
  | [] => ""
  | [p] => p
  | p :: rest => p ++ sep ++ join sep rest
  end.

(** [x in l] for a list of strings. *)
Definition mem (x : string) (l : list string) : bool :=
  existsb (String.eqb x) l.

(** The digits of [int(s)] after the sign: digits with single underscores
    between them.  [after_digit] says that the previous character was a
    digit. *)
Fixpoint int_digits (acc : Z) (after_digit : bool) (cs : list ascii) : option Z :=
  match cs with
  | [] => if after_digit then Some acc else None
  | c :: r =>
      if is_digit c then int_digits (10 * acc + digit_value c) true r
      else if Ascii.eqb c "_" && after_digit then int_digits acc false r
      else None
  end.

Definition split_sign (cs : list ascii) : bool * list ascii :=
  match cs with
  | c :: r =>
      if Ascii.eqb c "-" then (true, r)
      else if Ascii.eqb c "+" then (false, r)
      else (false, cs)
  | [] => (false, [])
  end.

(** [sys.get_int_max_str_digits()], the default. *)
Definition int_max_str_digits : nat := 4300.

(** [int(s)] in base 10; [None] is [ValueError], which a text of more
    digits than the limit raises too. *)
Definition int (s : string) : option Z :=
  let (neg, body) := split_sign (rstrip_c (lstrip_c (chars s))) in
  match int_digits 0 false body with
  | Some n =>
      if (List.length (filter is_digit body) <=? int_max_str_digits)%nat
      then Some (if neg then - n else n)
      else None
  | None => None
  end.

(** [str(n)] for an [int], as an f-string prints it. *)
Definition str_of_int (n : Z) : string := NilZero.string_of_int (Z.to_int n).

(** Python truthiness of an [int | None], of a [str | None] and of a list. *)
Definition truthy_int (x : option Z) : bool :=
  match x with Some n => negb (n =? 0) | None => false end.

Definition truthy_str (x : option string) : bool :=
  match x with Some s => negb (String.eqb s "") | None => false end.

(** A [float]: [Finite q] is the float nearest to the rational [q]. *)
Inductive Float : Type :=
| Finite (q : Q)
| Infinite (negative : bool)
| NaN.

(** A [digitpart] of a float literal, digits with single underscores between
    them, split from what follows it. *)
Fixpoint digitpart (cs : list ascii) : list ascii * list ascii :=
  match cs with
  | c :: r =>
      if is_digit c then
        match r with
        | u :: ((d :: _) as r') =>
            if Ascii.eqb u "_" && is_digit d
            then let (ds, rest) := digitpart r' in (c :: ds, rest)
            else let (ds, rest) := digitpart r in (c :: ds, rest)
        | _ => let (ds, rest) := digitpart r in (c :: ds, rest)
        end
      else ([], cs)
  | [] => ([], [])
  end.

Definition digits_value (ds : list ascii) : Z :=
  fold_left (fun acc c => 10 * acc + digit_value c) ds 0.

Definition is_nil {A : Type} (l : list A) : bool :=
  match l with [] => true | _ :: _ => false end.

(** The exponent of a float literal: nothing, or [e], a sign and digits up
    to the end of the string. *)
Definition exponent (cs : list ascii) : option Z :=
  match cs with
  | [] => Some 0
  | e :: r =>
      if Ascii.eqb (lower e) "e" then
        let (neg, r1) := split_sign r in
        let (ds, r2) := digitpart r1 in
        if is_nil ds || negb (is_nil r2) then None
        else Some (if neg then - digits_value ds else digits_value ds)
      else None
  end.

Definition scale (m e : Z) : Q :=
  if 0 <=? e then Qmake (m * 10 ^ e) 1 else Qmake m (Z.to_pos (10 ^ (- e))).

(** The float of a decimal number: an infinity from the first rational that
    rounds beyond the floats on. *)
Definition float_of_decimal (q : Q) : Float :=
  if Qle_bool (inject_Z (2 ^ 1024 - 2 ^ 970)) (Qabs q)
  then Infinite (Qle_bool q 0)
  else Finite q.

(** [float(s)]; [None] is [ValueError]. *)
Definition float (s : string) : option Float :=
  let (neg, body) := split_sign (rstrip_c (lstrip_c (chars s))) in
  let word := str (map lower body) in
  if String.eqb word "inf" || String.eqb word "infinity" then Some (Infinite neg)
  else if String.eqb word "nan" then Some NaN
  else
    let (ip, r1) := digitpart body in
    let '(fp, r2, mantissa) :=
      match r1 with
      | c :: r =>
          if Ascii.eqb c "."
          then let (fp, r2) := digitpart r in
               (fp, r2, negb (is_nil ip) || negb (is_nil fp))
          else ([], r1, negb (is_nil ip))
      | [] => ([], r1, negb (is_nil ip))
      end in
    if mantissa then
      match exponent r2 with
      | Some e =>
          let m := digits_value (ip ++ fp)%list in
          Some (float_of_decimal (scale (if neg then - m else m)
                                        (e - Z.of_nat (List.length fp))))
      | None => None
      end
    else None.

(** [n / 2.0] for an [int] [n]: the conversion of [n] to a float raises
    [OverflowError] from the first integer that rounds to 2^1024 on. *)
Definition truediv_2 (n : Z) : Result Float :=
  if Z.abs n <? 2 ^ 1024 - 2 ^ 970 then Ok (Finite (Qmake n 2))
  else Raise OverflowError.

End Py.

(** [datetime.date]: the constructor checks the calendar. *)
Module Datetime.

Record date : Type := Date { year : Z; month : Z; day : Z }.

Definition is_leap (y : Z) : bool :=
  (y mod 4 =? 0) && (negb (y mod 100 =? 0) || (y mod 400 =? 0)).

Definition days_in_month (y m : Z) : Z :=
  if m =? 2 then (if is_leap y then 29 else 28)
  else if (m =? 4) || (m =? 6) || (m =? 9) || (m =? 11) then 30
  else 31.

(** [date(y, m, d)]; [None] is [ValueError]. *)
Definition make (y m d : Z) : option date :=
  if (1 <=? y) && (y <=? 9999) && (1 <=? m) && (m <=? 12)
     && (1 <=? d) && (d <=? days_in_month y m)
  then Some (Date y m d) else None.

End Datetime.

(** ** The data model *)

(** Modelled from the spec: the record [Film] of [letterboxd2notion/models.py],
    which is imported by the three modules and is not part of the sources
    read here.  The fields and their types are those of section 3 of the
    specification; the two artwork fields are absent unless given. *)
Record Film : Type := mkFilm {
  letterboxd_id : string;
  tmdb_id : option Z;
  title : string;
  year : Z;
  letterboxd_url : string;
  rating : option Py.Float;
  watched_date : option Datetime.date;
  rewatch : bool;
  review : option string;
  backdrop_url : option string;
  poster_url : option string
}.

(** ** The HTTP client *)

(** A movie object of the movie database, read through the three keys the
    enrichment looks up; a key that is missing or [null] reads as [None]. *)
Record Movie : Type := mkMovie {
  movie_id : option Z;
  poster_path : option string;
  backdrop_path : option string
}.

(** What [response.json()] does with the content: it decodes a movie
    object, or the object of a search with its [results] array of movie
    objects, or [null], or a value that is neither [null] nor an object (a
    list, a number, a string); or the content is not JSON and it raises.
    Inside an object the values have the types of the movie database's
    schema. *)
Inductive Json : Type :=
| JsonMovie (m : Movie)
| JsonSearch (results : list Movie)
| JsonNull
| JsonOther
| NotJson.

Record Response : Type := mkResponse {
  status_code : Z;
  headers : list (string * string);
  content : string;
  json : Json
}.

(** [await client.get(url, params=params)]: the answer to a request for
    [url] with the query parameters [params] (the fixed request headers and
    the following of redirects are the transport's). *)
Definition AsyncClient : Type := string -> list (string * string) -> Response.

(** [d.get(key)] on a decoded object. *)
Definition get_id (d : Json) : option Z :=
  match d with JsonMovie m => movie_id m | _ => None end.

Definition get_poster_path (d : Json) : option string :=
  match d with JsonMovie m => poster_path m | _ => None end.

Definition get_backdrop_path (d : Json) : option string :=
  match d with JsonMovie m => backdrop_path m | _ => None end.

(** [d.get("results", [])] *)
Definition get_results (d : Json) : list Movie :=
  match d with JsonSearch results => results | _ => [] end.

(** [response.json()]: the decoded value, [JSONDecodeError] for a content
    that is not JSON. *)
Definition decode (response : Response) : Result Json :=
  match json response with
  | NotJson => Raise JSONDecodeError
  | d => Ok d
  end.

(** The decoded value as the receiver of [.get]: an object, or
    [AttributeError] ([None], a list, a number and a string have no [get]). *)
Definition as_dict (d : Json) : Result Json :=
  match d with
  | JsonMovie _ | JsonSearch _ => Ok d
  | _ => Raise AttributeError
  end.

(** ** parsers/__init__.py: the enrichment *)

Definition TMDB_BASE_URL : string := "https://api.themoviedb.org/3".
Definition TMDB_IMAGE_BASE : string := "https://image.tmdb.org/t/p".

Definition movie_url (tmdb_id : Z) : string :=
  TMDB_BASE_URL ++ "/movie/" ++ Py.str_of_int tmdb_id.

Definition search_url : string := TMDB_BASE_URL ++ "/search/movie".

Definition search_params (title : string) (year : option Z) (api_key : string)
  : list (string * string) :=
  let params := [("api_key", api_key); ("query", title)] in
  match year with
  | Some y => if y =? 0 then params
              else (params ++ [("year", Py.str_of_int y)])%list
  | None => params
  end.

Definition _fetch_movie_by_id (client : AsyncClient) (tmdb_id : Z)
    (api_key : string) : Result (option Json) :=
  let url := movie_url tmdb_id in
  let response := client url [("api_key", api_key)] in
  if status_code response =? 404 then Ok None
  else if negb (status_code response =? 200) then
    Raise (TMDBError ("TMDB API error: " ++ Py.str_of_int (status_code response)))
  else
    d <- decode response ;;
    Ok (match d with JsonNull => None | _ => Some d end).

Definition _search_movie (client : AsyncClient) (title : string)
    (year : option Z) (api_key : string) : Result (option Json) :=
  let url := search_url in
  let params := search_params title year api_key in
  let response := client url params in
  if negb (status_code response =? 200) then
    Raise (TMDBError ("TMDB search error: " ++ Py.str_of_int (status_code response)))
  else
    data <- decode response ;;
    data <- as_dict data ;;
    let results := get_results data in
    Ok (match results with
        | first :: _ => Some (JsonMovie first)
        | [] => None
        end).

Definition image_url (path : option string) : option string :=
  match path with
  | Some p => if String.eqb p "" then None
              else Some (TMDB_IMAGE_BASE ++ "/w500" ++ p)
  | None => None
  end.

Definition enrich_film_with_tmdb (client : AsyncClient) (film : Film)
    (api_key : string) : Result Film :=
  movie_data <-
    match tmdb_id film with
    | Some i =>
        if negb (i =? 0) then _fetch_movie_by_id client i api_key
        else _search_movie client (title film) (Some (year film)) api_key
    | None => _search_movie client (title film) (Some (year film)) api_key
    end ;;
  match movie_data with
  | None => Ok film
  | Some movie_data =>
      movie_data <- as_dict movie_data ;;
      let backdrop_path := get_backdrop_path movie_data in
      let poster_path := get_poster_path movie_data in
      Ok {| letterboxd_id := letterboxd_id film;
            title := title film;
            year := year film;
            letterboxd_url := letterboxd_url film;
            rating := rating film;
            watched_date := watched_date film;
            rewatch := rewatch film;
            review := review film;
            backdrop_url := image_url poster_path;
            poster_url := image_url poster_path;
            tmdb_id := match tmdb_id film with
                       | None => get_id movie_data
                       | Some i => Some i
                       end |}
  end.

(** The answer to the one request an enrichment of [film] sends. *)
Definition enrich_response (client : AsyncClient) (film : Film)
    (api_key : string) : Response :=
  if Py.truthy_int (tmdb_id film)
  then client (movie_url (match tmdb_id film with Some i => i | None => 0 end))
              [("api_key", api_key)]
  else client search_url (search_params (title film) (Some (year film)) api_key).

(** ** The parsed documents *)

(** A BeautifulSoup tree.  The [class] attribute is multi-valued and the
    parser stores it as a list; the other attributes the parsers read
    ([data-viewing-id], [data-item-name], [data-item-slug], [href]) are
    single strings. *)
Inductive PageElement : Type :=
| NavigableString (s : string)
| Tag (name : string) (class_ : option (list string))
      (attrs : list (string * string)) (contents : list PageElement).

Module Soup.

Fixpoint descendants (e : PageElement) : list PageElement :=
  match e with
  | NavigableString _ => []
  | Tag _ _ _ contents => flat_map (fun c => c :: descendants c) contents
  end.

Definition name (e : PageElement) : option string :=
  match e with NavigableString _ => None | Tag n _ _ _ => Some n end.

(** [tag.get("class")] *)
Definition get_class (e : PageElement) : option (list string) :=
  match e with NavigableString _ => None | Tag _ c _ _ => c end.

(** [tag.get(key)] for a single-valued attribute. *)
Definition get (e : PageElement) (key : string) : option string :=
  match e with
  | NavigableString _ => None
  | Tag _ _ attrs _ =>
      match find (fun kv => String.eqb (fst kv) key) attrs with
      | Some kv => Some (snd kv)
      | None => None
      end
  end.

(** [tag.get(key, default)] *)
Definition get_default (e : PageElement) (key default : string) : string :=
  match get e key with Some v => v | None => default end.

(** The attribute part of a compound selector: [[key]] or, on the class
    attribute, [[class*='sub']] (the class list is read joined by spaces). *)
Inductive AttrTest : Type :=
| Always
| HasAttr (key : string)
| ClassContains (sub : string).

(** The compound selector [name.cls[test]]. *)
Record Selector : Type := mkSelector {
  sel_name : string;
  sel_class : string;
  sel_attr : AttrTest
}.

Definition has_class (cls : string) (e : PageElement) : bool :=
  match get_class e with Some l => Py.mem cls l | None => false end.

Definition attr_holds (t : AttrTest) (e : PageElement) : bool :=
  match t with
  | Always => true
  | HasAttr key => match get e key with Some _ => true | None => false end
  | ClassContains sub =>
      match get_class e with
      | Some l => Py.contains (Py.join " " l) sub
      | None => false
      end
  end.

Definition matches (sel : Selector) (e : PageElement) : bool :=
  match e with
  | NavigableString _ => false
  | Tag n _ _ _ =>
      String.eqb n (sel_name sel) && has_class (sel_class sel) e
      && attr_holds (sel_attr sel) e
  end.

(** [tag.select(sel)] and [tag.select_one(sel)]: the matching descendants in
    document order, and the first of them. *)
Definition select (e : PageElement) (sel : Selector) : list PageElement :=
  filter (matches sel) (descendants e).

Definition select_one (e : PageElement) (sel : Selector) : option PageElement :=
  find (matches sel) (descendants e).

Definition named (n : string) (e : PageElement) : bool :=
  match name e with Some m => String.eqb m n | None => false end.

(** [tag.find(name)] and [tag.find_all(name)] *)
Definition find_tag (e : PageElement) (n : string) : option PageElement :=
  find (named n) (descendants e).

Definition find_all (e : PageElement) (n : string) : list PageElement :=
  filter (named n) (descendants e).

(** The strings below a tag, in document order. *)
Definition strings (e : PageElement) : list string :=
  flat_map (fun d => match d with NavigableString s => [s] | Tag _ _ _ _ => [] end)
           (descendants e).

(** [tag.get_text(strip=True)]: every string stripped, the empty ones
    dropped, the rest concatenated. *)
Definition get_text_strip (e : PageElement) : string :=
  Py.join "" (filter (fun s => negb (String.eqb s "")) (map Py.strip (strings e))).

End Soup.

(** An [xml.etree.ElementTree.Element]: its tag (with the namespace in
    braces), its text and its children. *)
Inductive Element : Type :=
| Elem (tag : string) (text : option string) (children : list Element).

Module ET.

Definition tag (e : Element) : string := match e with Elem t _ _ => t end.
Definition text (e : Element) : option string := match e with Elem _ t _ => t end.
Definition children (e : Element) : list Element := match e with Elem _ _ c => c end.

Fixpoint descendants (e : Element) : list Element :=
  match e with
  | Elem _ _ cs => flat_map (fun c => c :: descendants c) cs
  end.

(** [item.find(tag)]: the first child with that tag. *)
Definition find (e : Element) (t : string) : option Element :=
  List.find (fun c => String.eqb (tag c) t) (children e).

(** [root.findall(".//item")] *)
Definition findall_descendants (e : Element) (t : string) : list Element :=
  filter (fun c => String.eqb (tag c) t) (descendants e).

(** [item.find("prefix:local", namespaces)] *)
Definition find_ns (e : Element) (namespaces : list (string * string))
    (prefix local : string) : option Element :=
  match List.find (fun kv => String.eqb (fst kv) prefix) namespaces with
  | Some kv => find e ("{" ++ snd kv ++ "}" ++ local)
  | None => None
  end.

End ET.

(** ** parsers/html_parser.py: the diary *)

Definition LF : string := String (ascii_of_nat 10) EmptyString.

(** [response.raise_for_status()] of httpx: anything but a 2xx status is
    raised. *)
Definition raise_for_status (response : Response) : Result unit :=
  if (200 <=? status_code response) && (status_code response <? 300)
  then Ok tt else Raise (HTTPStatusError (status_code response)).

Definition all_digits (cs : list ascii) : bool := forallb Py.is_digit cs.

(** The two regular expressions of [_parse_diary_row], [\((\d{4})\)$] and
    [\s*\(\d{4}\)$], read on the reversed title: [$] is the end of the
    string or the place before a final line feed.  The result is the group
    of four digits, the title before the white space that precedes the
    parenthesis, and the final line feed when there is one. *)
Definition year_suffix (title : string)
  : option (list ascii * list ascii * list ascii) :=
  let r := rev (Py.chars title) in
  let (nl, r1) :=
    match r with
    | c :: r' => if Ascii.eqb c (ascii_of_nat 10) then ([c], r') else ([], r)
    | [] => ([], [])
    end in
  match r1 with
  | cl :: d4 :: d3 :: d2 :: d1 :: op :: before =>
      if Ascii.eqb cl ")" && Ascii.eqb op "(" && all_digits [d1; d2; d3; d4]
      then Some ([d1; d2; d3; d4], before, nl)
      else None
  | _ => None
  end.

(** [int(year_match.group(1)) if year_match else 0] *)
Definition title_year (title : string) : Z :=
  match year_suffix title with
  | Some (digits, _, _) => Py.digits_value digits
  | None => 0
  end.

(** [re.sub(r"\s*\(\d{4}\)$", "", title)] *)
Definition clean_title (title : string) : string :=
  match year_suffix title with
  | Some (_, before, nl) => Py.str (rev (nl ++ Py.lstrip_rev before)%list)
  | None => title
  end.

(** One or two digits, the longest first, with what follows them. *)
Definition digits_1_2 (cs : list ascii) : list (list ascii * list ascii) :=
  match cs with
  | a :: ((b :: r2) as r1) =>
      if Py.is_digit a then
        if Py.is_digit b then [([a; b], r2); ([a], r1)] else [([a], r1)]
      else []
  | [a] => if Py.is_digit a then [([a], [])] else []
  | [] => []
  end.

Definition drop_prefix (p : string) (cs : list ascii) : option (list ascii) :=
  if String.prefix p (Py.str cs) then Some (skipn (String.length p) cs) else None.

(** A match of [/for/(\d{4})/(\d{1,2})/(\d{1,2})] at the head of [cs]. *)
Definition date_at (cs : list ascii) : option (list ascii * list ascii * list ascii) :=
  match drop_prefix "/for/" cs with
  | Some (y1 :: y2 :: y3 :: y4 :: sl :: r) =>
      if all_digits [y1; y2; y3; y4] && Ascii.eqb sl "/" then
        let months :=
          filter (fun mr => match snd mr with
                            | c :: _ => Ascii.eqb c "/"
                            | [] => false
                            end) (digits_1_2 r) in
        match months with
        | (m, _ :: r') :: _ =>
            match digits_1_2 r' with
            | (d, _) :: _ => Some ([y1; y2; y3; y4], m, d)
            | [] => None
            end
        | _ => None
        end
      else None
  | _ => None
  end.

(** [re.search] of that expression: the leftmost match. *)
Fixpoint date_search (cs : list ascii) : option (list ascii * list ascii * list ascii) :=
  match date_at cs with
  | Some g => Some g
  | None => match cs with
            | _ :: r => date_search r
            | [] => None
            end
  end.

Definition diary_row_selector : Soup.Selector :=
  Soup.mkSelector "tr" "diary-entry-row" Soup.Always.
Definition poster_selector : Soup.Selector :=
  Soup.mkSelector "div" "react-component" (Soup.HasAttr "data-item-slug").
Definition rating_selector : Soup.Selector :=
  Soup.mkSelector "span" "rating" (Soup.ClassContains "rated-").
Definition daydate_selector : Soup.Selector :=
  Soup.mkSelector "a" "daydate" Soup.Always.
Definition rewatch_selector : Soup.Selector :=
  Soup.mkSelector "td" "col-rewatch" Soup.Always.

(** The loop of [_extract_rating] over the classes of the rating span: a
    [ValueError] of [int] is passed over and the loop goes on. *)
Fixpoint rating_of_classes (classes : list string) : Result (option Py.Float) :=
  match classes with
  | [] => Ok None
  | cls :: rest =>
      if Py.startswith cls "rated-" then
        match Py.int (Py.remove cls "rated-") with
        | Some half_stars =>
            stars <- Py.truediv_2 half_stars ;; Ok (Some stars)
        | None => rating_of_classes rest
        end
      else rating_of_classes rest
  end.

Definition _extract_rating (row : PageElement) : Result (option Py.Float) :=
  match Soup.select_one row rating_selector with
  | Some rating_span =>
      match Soup.get_class rating_span with
      | Some classes => rating_of_classes classes
      | None => Ok None
      end
  | None => Ok None
  end.

Definition _extract_watched_date (row : PageElement) : option Datetime.date :=
  match Soup.select_one row daydate_selector with
  | None => None
  | Some day_link =>
      let href := Soup.get_default day_link "href" "" in
      match date_search (Py.chars href) with
      | Some (y, m, d) =>
          Datetime.make (Py.digits_value y) (Py.digits_value m) (Py.digits_value d)
      | None => None
      end
  end.

Definition _parse_diary_row (row : PageElement) : Result (option Film) :=
  match Soup.get row "data-viewing-id" with
  | None => Ok None
  | Some viewing_id =>
      if String.eqb viewing_id "" then Ok None else
      match Soup.select_one row poster_selector with
      | None => Ok None
      | Some poster_div =>
          let title := Soup.get_default poster_div "data-item-name" "" in
          let slug := Soup.get_default poster_div "data-item-slug" "" in
          if String.eqb title "" || String.eqb slug "" then Ok None else
          let year := title_year title in
          let clean_title := clean_title title in
          let letterboxd_url := "https://letterboxd.com/film/" ++ slug ++ "/" in
          rating <- _extract_rating row ;;
          let watched_date := _extract_watched_date row in
          let rewatch_td := Soup.select_one row rewatch_selector in
          let rewatch_classes :=
            match rewatch_td with
            | Some td => Soup.get_class td
            | None => None
            end in
          let rewatch :=
            match rewatch_classes with
            | Some classes => negb (Py.mem "icon-status-off" classes)
            | None => false
            end in
          let letterboxd_id := "letterboxd-viewing-" ++ viewing_id in
          Ok (Some {| letterboxd_id := letterboxd_id;
                      tmdb_id := None;
                      title := clean_title;
                      year := year;
                      letterboxd_url := letterboxd_url;
                      rating := rating;
                      watched_date := watched_date;
                      rewatch := rewatch;
                      review := None;
                      backdrop_url := None;
                      poster_url := None |})
      end
  end.

(** The loop [for row in rows: film = parse(row); if film: films.append(film)]
    of both page parsers. *)
Fixpoint collect {A : Type} (parse : A -> Result (option Film)) (rows : list A)
  : Result (list Film) :=
  match rows with
  | [] => Ok []
  | row :: rest =>
      film <- parse row ;;
      films <- collect parse rest ;;
      Ok (match film with Some f => f :: films | None => films end)
  end.

(** [response.headers.get(key)]: header names compare without case, and the
    values of a header that occurs several times are joined by a comma and a
    space. *)
Definition lower_str (s : string) : string := Py.str (map Py.lower (Py.chars s)).

Definition headers_get (hs : list (string * string)) (key : string) : option string :=
  match filter (fun kv => String.eqb (lower_str (fst kv)) (lower_str key)) hs with
  | [] => None
  | items => Some (Py.join ", " (map snd items))
  end.

(** What the pagination driver does besides returning: the callback, the
    page requests and the pauses, in order. *)
Inductive Event : Type :=
| OnPage (page : Z)
| Fetch (page : Z)
| Sleep (seconds : Z).

Definition NAMESPACES : list (string * string) :=
  [("letterboxd", "https://letterboxd.com");
   ("tmdb", "https://themoviedb.org");
   ("dc", "http://purl.org/dc/elements/1.1/")].

Definition SPOILER_WARNING : string := "This review may contain spoilers".

(** The loop of [_extract_review_from_description] over the paragraphs. *)
Fixpoint review_loop (paragraphs : list PageElement) (review_parts : list string)
  : list string :=
  match paragraphs with
  | [] => review_parts
  | p :: rest =>
      if (match Soup.find_tag p "img" with Some _ => true | None => false end)
         && String.eqb (Soup.get_text_strip p) ""
      then review_loop rest review_parts
      else
        let text := Soup.get_text_strip p in
        if Py.startswith text SPOILER_WARNING then review_loop rest review_parts
        else if negb (String.eqb text "") then review_loop rest (review_parts ++ [text])%list
        else review_loop rest review_parts
  end.

Section Parsers.

(** The libraries' parsers: [BeautifulSoup(markup, features)],
    [ET.fromstring(content)], whose [ParseError] is [inl] of its message, and
    [date.fromisoformat(text)], whose [ValueError] is [None]. *)
Variable BeautifulSoup : string -> string -> PageElement.
Variable fromstring : string -> string + Element.
Variable fromisoformat : string -> option Datetime.date.

Definition parse_diary_page (client : AsyncClient) (diary_url : string) (page : Z)
  : Result (list Film * bool) :=
  let url := diary_url ++ "/page/" ++ Py.str_of_int page ++ "/" in
  let response := client url [] in
  if status_code response =? 429 then Raise (RateLimitError None)
  else
    raise_for_status response ;;;
    let soup := BeautifulSoup (content response) "html.parser" in
    films <- collect _parse_diary_row (Soup.select soup diary_row_selector) ;;
    let has_more := negb (Py.is_nil films) in
    Ok (films, has_more).

(** [parse_all_diary_pages] from page [page] on with [all_films] collected
    so far; [fuel] bounds the number of pages and [None] is a loop that has
    not ended within it.  [on_page] says whether a callback was given. *)
Fixpoint parse_all_from (fuel : nat) (client : AsyncClient) (diary_url : string)
    (on_page : bool) (page : Z) (all_films : list Film)
  : list Event * option (Result (list Film)) :=
  match fuel with
  | O => ([], None)
  | S fuel' =>
      let events := ((if on_page then [OnPage page] else []) ++ [Fetch page])%list in
      match parse_diary_page client diary_url page with
      | Raise e => (events, Some (Raise e))
      | Ok (films, has_more) =>
          if Py.is_nil films then (events, Some (Ok all_films))
          else
            let all_films := (all_films ++ films)%list in
            let page := page + 1 in
            if negb has_more then (events, Some (Ok all_films))
            else
              let (later, outcome) :=
                parse_all_from fuel' client diary_url on_page page all_films in
              ((events ++ Sleep 2 :: later)%list, outcome)
      end
  end.

Definition parse_all_diary_pages (fuel : nat) (client : AsyncClient)
    (diary_url : string) (on_page : bool)
  : list Event * option (Result (list Film)) :=
  parse_all_from fuel client diary_url on_page 1 [].

(** *** parsers/rss_parser.py: the feed *)

Definition _extract_review_from_description (item : Element) : option string :=
  match ET.find item "description" with
  | None => None
  | Some desc_elem =>
      match ET.text desc_elem with
      | None => None
      | Some desc_text =>
          let soup := BeautifulSoup desc_text "lxml" in
          let paragraphs := Soup.find_all soup "p" in
          let review_parts := review_loop paragraphs [] in
          if Py.is_nil review_parts then None
          else Some (Py.join (LF ++ LF) review_parts)
      end
  end.

(** The text of a child that is there and has a text. *)
Definition child_text (elem : option Element) : option string :=
  match elem with
  | Some e => ET.text e
  | None => None
  end.

(** [convert(elem.text) if elem is not None and elem.text else None], where
    [convert] raises [ValueError] on [None]. *)
Definition optional_field {A : Type} (convert : string -> option A)
    (elem : option Element) : Result (option A) :=
  if Py.truthy_str (child_text elem) then
    match child_text elem with
    | Some t => match convert t with
                | Some v => Ok (Some v)
                | None => Raise ValueError
                end
    | None => Ok None
    end
  else Ok None.

Definition _parse_rss_item (item : Element) : Result (option Film) :=
  match child_text (ET.find item "guid") with
  | None => Ok None
  | Some letterboxd_id =>
      match child_text (ET.find_ns item NAMESPACES "letterboxd" "filmTitle") with
      | None => Ok None
      | Some title =>
          match child_text (ET.find_ns item NAMESPACES "letterboxd" "filmYear") with
          | None => Ok None
          | Some year_text =>
              year <- match Py.int year_text with
                      | Some y => Ok y
                      | None => Raise ValueError
                      end ;;
              let link_elem := ET.find item "link" in
              let letterboxd_url :=
                if Py.truthy_str (child_text link_elem)
                then match child_text link_elem with Some t => t | None => "" end
                else "" in
              rating <- optional_field Py.float
                          (ET.find_ns item NAMESPACES "letterboxd" "memberRating") ;;
              watched_date <- optional_field fromisoformat
                          (ET.find_ns item NAMESPACES "letterboxd" "watchedDate") ;;
              let rewatch_elem := ET.find_ns item NAMESPACES "letterboxd" "rewatch" in
              let rewatch :=
                match rewatch_elem with
                | Some e => match ET.text e with
                            | Some t => String.eqb t "Yes"
                            | None => false
                            end
                | None => false
                end in
              tmdb_id <- optional_field Py.int
                          (ET.find_ns item NAMESPACES "tmdb" "movieId") ;;
              let review := _extract_review_from_description item in
              Ok (Some {| letterboxd_id := letterboxd_id;
                          tmdb_id := tmdb_id;
                          title := title;
                          year := year;
                          letterboxd_url := letterboxd_url;
                          rating := rating;
                          watched_date := watched_date;
                          rewatch := rewatch;
                          review := review;
                          backdrop_url := None;
                          poster_url := None |})
          end
      end
  end.

Definition parse_rss_feed (client : AsyncClient) (rss_url : string)
  : Result (list Film) :=
  let response := client rss_url [] in
  if status_code response =? 429 then
    retry_after <-
      match headers_get (headers response) "Retry-After" with
      | Some v => match Py.int v with
                  | Some n => Ok n
                  | None => Raise ValueError
                  end
      | None => Ok 60
      end ;;
    Raise (RateLimitError (Some retry_after))
  else
    raise_for_status response ;;;
    root <- match fromstring (content response) with
            | inr root => Ok root
            | inl e => Raise (ParseError ("Failed to parse RSS XML: " ++ e))
            end ;;
    collect _parse_rss_item (ET.findall_descendants root "item").

End Parsers.

(** * Sample inputs and the specification's statements *)

Module Sample.

Definition arrival : Movie :=
  mkMovie (Some 329865) (Some "/poster.jpg") (Some "/backdrop.jpg").

(** A film as the diary parser makes it (no catalog ID) and as the feed
    parser makes it (with one). *)
Definition diary_film : Film :=
  mkFilm "letterboxd-viewing-7" None "Arrival" 2016
         "https://letterboxd.com/film/arrival-2016/"
         (Some (Py.Finite (Qmake 9 2))) (Some (Datetime.Date 2025 12 26))
         false None None None.

Definition feed_film : Film :=
  mkFilm "letterboxd-review-42" (Some 329865) "Arrival" 2016
         "https://letterboxd.com/film/arrival-2016/"
         (Some (Py.Finite (Qmake 9 2))) None false
         (Some "A quiet masterpiece.") None None.

(** A movie database that knows one film: a search finds it and every
    lookup by ID returns it. *)
Definition tmdb : AsyncClient :=
  fun url params =>
    if String.eqb url search_url
    then mkResponse 200 [] "" (JsonSearch [arrival])
    else mkResponse 200 [] "" (JsonMovie arrival).

(** A server that answers every request with the same status, an empty
    body and the given headers. *)
Definition status_only (status : Z) (hs : list (string * string)) : AsyncClient :=
  fun url params => mkResponse status hs "" (JsonSearch []).

End Sample.

(** The first sentence of the error rule of the enrichment, as the
    specification words it: an error is raised exactly when the status of
    the answer is neither 200 nor 404. *)
Definition error_iff_unexpected_status (client : AsyncClient) (film : Film)
    (api_key : string) : Prop :=
  (exists message, enrich_film_with_tmdb client film api_key = Raise (TMDBError message))
  <-> (status_code (enrich_response client film api_key) <> 200
       /\ status_code (enrich_response client film api_key) <> 404).

(** The second request of a repeated enrichment agrees with the first: a
    lookup of the ID of [movie] does not fail, and what it returns is
    nothing (a 404, a [null]) or an object with the artwork paths of
    [movie]. *)
Definition lookup_agrees (client : AsyncClient) (api_key : string) (movie : Json)
  : Prop :=
  forall i, get_id movie = Some i -> i <> 0 ->
    match _fetch_movie_by_id client i api_key with
    | Ok (Some again) =>
        as_dict again = Ok again
        /\ get_poster_path again = get_poster_path movie
        /\ get_backdrop_path again = get_backdrop_path movie
    | Ok None => True
    | Raise _ => False
    end.

(** The message of the error of each of the two requests. *)
Definition api_error (by_id : bool) (status : Z) : Exception :=
  TMDBError ((if by_id then "TMDB API error: " else "TMDB search error: ")
             ++ Py.str_of_int status).

(** The characters of a string that [int] accepts. *)
Definition int_char (c : ascii) : bool :=
  Py.is_space_c c || Py.is_digit c || Ascii.eqb c "_" || Ascii.eqb c "+"
  || Ascii.eqb c "-".

(** A class that the rating loop passes over: it is no [rated-] token, or
    what is left of it once every [rated-] is removed is an ASCII text that
    [int] rejects. *)
Definition skipped_class (cls : string) : bool :=
  negb (Py.startswith cls "rated-")
  || (Py.is_ascii (Py.remove cls "rated-")
      && match Py.int (Py.remove cls "rated-") with
         | Some _ => false
         | None => true
         end).

Definition float_bound : Z := 2 ^ 1024 - 2 ^ 970.

Module SampleRow.

(** A diary row with the given classes on its rating span and on its
    rewatch cell. *)
Definition row (rating_classes rewatch_classes : list string) : PageElement :=
  Tag "tr" (Some ["diary-entry-row"]) [("data-viewing-id", "123")]
    [ Tag "td" (Some ["col-film"]) []
        [ Tag "div" (Some ["react-component"])
              [("data-item-name", "Home Alone (1990)");
               ("data-item-slug", "home-alone")] [] ];
      Tag "td" (Some ["col-rating"]) []
        [ Tag "span" (Some rating_classes) [] [] ];
      Tag "td" (Some ["col-daydate"]) []
        [ Tag "a" (Some ["daydate"])
              [("href", "/someone/diary/films/for/2025/12/26/")] [] ];
      Tag "td" (Some rewatch_classes) [] [] ].

End SampleRow.

(** The class [cls] is on some element of the row. *)
Definition marker_present (cls : string) (row : PageElement) : bool :=
  existsb (Soup.has_class cls) (Soup.descendants row).

(** A paragraph whose only content is an image: it has an [img] and no
    visible text. *)
Definition image_only (p : PageElement) : bool :=
  match Soup.find_tag p "img" with
  | Some _ => String.eqb (Soup.get_text_strip p) ""
  | None => false
  end.

(** The visible text of a paragraph that the review keeps: it is not empty
    and does not begin with the spoiler warning. *)
Definition qualifies (text : string) : bool :=
  negb (String.eqb text "") && negb (Py.startswith text SPOILER_WARNING).

(** The review as the specification words it: the visible texts of the
    qualifying paragraphs of the parsed description, in document order,
    joined by a blank line; absent when there is none. *)
Definition review_of_soup (soup : PageElement) : option string :=
  let texts := filter qualifies (map Soup.get_text_strip (Soup.find_all soup "p")) in
  if Py.is_nil texts then None else Some (Py.join (LF ++ LF) texts).

Module SampleFeed.

(** A feed item with a guid, a title, a year and the given texts of its
    rating and of its watched date. *)
Definition item (rating_text watched_text : string) : Element :=
  Elem "item" None
    [ Elem "guid" (Some "letterboxd-review-42") [];
      Elem "{https://letterboxd.com}filmTitle" (Some "Arrival") [];
      Elem "{https://letterboxd.com}filmYear" (Some "2016") [];
      Elem "{https://letterboxd.com}memberRating" (Some rating_text) [];
      Elem "{https://letterboxd.com}watchedDate" (Some watched_text) [] ].

Definition feed (items : list Element) : Element :=
  Elem "rss" None [ Elem "channel" None (Elem "title" (Some "Diary") [] :: items) ].

(** A diary row whose rating token and whose date link are both malformed. *)
Definition malformed_row : PageElement :=
  Tag "tr" (Some ["diary-entry-row"]) [("data-viewing-id", "123")]
    [ Tag "div" (Some ["react-component"])
          [("data-item-name", "Arrival (2016)"); ("data-item-slug", "arrival-2016")] [];
      Tag "span" (Some ["rating"; "rated-abc"]) [] [];
      Tag "a" (Some ["daydate"]) [("href", "/someone/diary/films/for/2025/13/45/")] [] ].

(** The film of the row [SampleRow.row] with the rating token [rated-7] and
    the rewatch cell [col-rewatch]. *)
Definition home_alone : Film :=
  mkFilm "letterboxd-viewing-123" None "Home Alone" 1990
         "https://letterboxd.com/film/home-alone/"
         (Some (Py.Finite (Qmake 7 2))) (Some (Datetime.Date 2025 12 26))
         true None None None.

(** A parsed diary page with one row. *)
Definition page : PageElement :=
  Tag "[document]" None []
    [ Tag "table" None [] [ SampleRow.row ["rating"; "rated-7"] ["col-rewatch"] ] ].

End SampleFeed.

(** ** More sample inputs *)

Module SampleTMDB.

Definition contact : Movie :=
  mkMovie (Some 686) (Some "/contact.jpg") None.

(** A movie database whose search finds two films and whose lookups fail. *)
Definition search_only : AsyncClient :=
  fun url params =>
    if String.eqb url search_url
    then mkResponse 200 [] "" (JsonSearch [Sample.arrival; contact])
    else mkResponse 500 [] "" (JsonSearch []).

(** A film with the falsy catalog ID 0. *)
Definition zero_id_film : Film :=
  mkFilm "letterboxd-review-9" (Some 0) "Arrival" 0
         "https://letterboxd.com/film/arrival-2016/"
         None None false None None None.

End SampleTMDB.

(** The films of the rows that parse to a film, in the order of the rows. *)
Definition row_films {A : Type} (parse : A -> Result (option Film)) (rows : list A)
  : list Film :=
  flat_map (fun row => match parse row with
                       | Ok (Some film) => [film]
                       | _ => []
                       end) rows.

(** The callback and the request of one page, and the events of a crawl of
    [n] pages with films followed by a last page: a pause of two seconds
    after each of the [n] pages. *)
Definition page_events (on_page : bool) (page : Z) : list Event :=
  ((if on_page then [OnPage page] else []) ++ [Fetch page])%list.

Fixpoint crawl_events (on_page : bool) (start : Z) (n : nat) : list Event :=
  match n with
  | O => page_events on_page start
  | S k => (page_events on_page start ++ Sleep 2 :: crawl_events on_page (start + 1) k)%list
  end.

(** The diary answers the pages from [start] on with the non-empty film
    lists [pages], one page each, and the page after them with [last]. *)
Fixpoint serves (BeautifulSoup : string -> string -> PageElement)
    (client : AsyncClient) (diary_url : string) (start : Z)
    (pages : list (list Film)) (last : Result (list Film * bool)) : Prop :=
  match pages with
  | [] => parse_diary_page BeautifulSoup client diary_url start = last
  | films :: rest =>
      films <> []
      /\ (exists has_more,
             parse_diary_page BeautifulSoup client diary_url start = Ok (films, has_more))
      /\ serves BeautifulSoup client diary_url (start + 1) rest last
  end.

(** What the driver returns when the page [last] ends the crawl. *)
Definition crawl_outcome (last : Result (list Film * bool)) (all_films : list Film)
  : Result (list Film) :=
  match last with
  | Ok _ => Ok all_films
  | Raise e => Raise e
  end.

Module SampleDiary.

(** A diary of one page: the first page has the row of [SampleFeed.page],
    every other page has none. *)
Definition client : AsyncClient :=
  fun url params =>
    if String.eqb url "https://letterboxd.com/someone/diary/page/1/"
    then mkResponse 200 [] "page 1" (JsonSearch [])
    else mkResponse 200 [] "" (JsonSearch []).

Definition soup (markup features : string) : PageElement :=
  if String.eqb markup "page 1" then SampleFeed.page
  else Tag "[document]" None [] [].

(** The same diary, rate limited from the second page on. *)
Definition limited : AsyncClient :=
  fun url params =>
    if String.eqb url "https://letterboxd.com/someone/diary/page/1/"
    then mkResponse 200 [] "page 1" (JsonSearch [])
    else mkResponse 429 [] "" (JsonSearch []).

End SampleDiary.

(** The text of an optional child is one that its conversion rejects: the
    child is there, its text is not empty, and [convert] raises. *)
Definition rejected {A : Type} (convert : string -> option A)
    (elem : option Element) : Prop :=
  exists t, child_text elem = Some t /\ t <> "" /\ convert t = None.

(** The value of an optional child: absent when the child is missing or has
    no text or an empty one. *)
Definition converted {A : Type} (convert : string -> option A)
    (elem : option Element) : option A :=
  match child_text elem with
  | Some t => if String.eqb t "" then None else convert t
  | None => None
  end.

(** The text of an optional child, when there is one, is ASCII. *)
Definition ascii_child (elem : option Element) : Prop :=
  forall t, child_text elem = Some t -> Py.is_ascii t = true.

(** What a 429 answer to the feed request raises. *)
Definition feed_429_error (hs : list (string * string)) : Exception :=
  match headers_get hs "Retry-After" with
  | Some v => match Py.int v with
              | Some n => RateLimitError (Some n)
              | None => ValueError
              end
  | None => RateLimitError (Some 60)
  end.

Module SampleItems.

(** The ISO dates of the form [YYYY-MM-DD], read with the functions of the
    diary parser. *)
Definition iso_date (s : string) : option Datetime.date :=
  match Py.chars s with
  | [y1; y2; y3; y4; h1; m1; m2; h2; d1; d2] =>
      if Ascii.eqb h1 "-" && Ascii.eqb h2 "-"
         && all_digits [y1; y2; y3; y4; m1; m2; d1; d2]
      then Datetime.make (Py.digits_value [y1; y2; y3; y4])
                         (Py.digits_value [m1; m2]) (Py.digits_value [d1; d2])
      else None
  | _ => None
  end.

Definition no_soup (markup features : string) : PageElement :=
  Tag "[document]" None [] [].

(** An item with the three required children and a rewatch mark only. *)
Definition bare : Element :=
  Elem "item" None
    [ Elem "guid" (Some "letterboxd-review-42") [];
      Elem "{https://letterboxd.com}filmTitle" (Some "Arrival") [];
      Elem "{https://letterboxd.com}filmYear" (Some "2016") [];
      Elem "{https://letterboxd.com}rewatch" (Some "Yes") [] ].

Definition bare_film : Film :=
  mkFilm "letterboxd-review-42" None "Arrival" 2016 "" None None true None None None.

(** An item without a year. *)
Definition yearless : Element :=
  Elem "item" None
    [ Elem "guid" (Some "letterboxd-list-7") [];
      Elem "title" (Some "A list") [] ].

End SampleItems.

(** ** config.py: the addresses of the settings *)

(** The settings whose fields the URL properties read; the process
    environment is a function from a variable's name to its value. *)
Record Settings : Type := mkSettings {
  notion_token : string;
  notion_database_id : string;
  tmdb_api_key : string;
  letterboxd_username : string
}.

Definition Environ : Type := string -> option string.

(** [os.getenv(key) or default] *)
Definition getenv_or (environ : Environ) (key default : string) : string :=
  match environ key with
  | Some v => if String.eqb v "" then default else v
  | None => default
  end.

Definition letterboxd_rss_url (environ : Environ) (self : Settings) : string :=
  getenv_or environ "LETTERBOXD_RSS_URL"
            ("https://letterboxd.com/" ++ letterboxd_username self ++ "/rss/").

Definition letterboxd_diary_url (environ : Environ) (self : Settings) : string :=
  getenv_or environ "LETTERBOXD_DIARY_URL"
            ("https://letterboxd.com/" ++ letterboxd_username self ++ "/diary/").

Definition letterboxd_films_url (environ : Environ) (self : Settings) : string :=
  getenv_or environ "LETTERBOXD_FILMS_URL"
            ("https://letterboxd.com/" ++ letterboxd_username self ++ "/films/").

(** The characters of a date link from its first [/for/] on: a year of four
    digits, a month and a day of one or two digits, and what follows the
    slash after the day. *)
Definition date_link (y1 y2 y3 y4 : ascii) (m d tail : list ascii) : list ascii :=
  (Py.chars "/for/" ++ [y1; y2; y3; y4] ++ "/"%char :: m ++ "/"%char :: d
   ++ "/"%char :: tail)%list.

Definition one_or_two_digits (ds : list ascii) : bool :=
  all_digits ds
  && ((Datatypes.length ds =? 1)%nat || (Datatypes.length ds =? 2)%nat).


(** * Properties *)

(** ** The enrichment *)

Lemma enrich_by_id (client : AsyncClient) (film : Film) (api_key : string) (i : Z) :
  tmdb_id film = Some i -> i <> 0 ->
  enrich_film_with_tmdb client film api_key =
  bind (_fetch_movie_by_id client i api_key)
       (fun movie_data =>
          match movie_data with
          | None => Ok film
          | Some d =>
              bind (as_dict d)
                   (fun d =>
                      Ok (mkFilm (letterboxd_id film) (Some i) (title film)
                                 (year film) (letterboxd_url film) (rating film)
                                 (watched_date film) (rewatch film) (review film)
                                 (image_url (get_poster_path d))
                                 (image_url (get_poster_path d))))
          end).
Proof.
  intros Hid Hi. unfold enrich_film_with_tmdb. rewrite Hid.
  destruct (Z.eqb_spec i 0) as [E | _]; [contradiction |]. reflexivity.
Qed.

Lemma enrich_by_search (client : AsyncClient) (film : Film) (api_key : string) :
  Py.truthy_int (tmdb_id film) = false ->
  enrich_film_with_tmdb client film api_key =
  bind (_search_movie client (title film) (Some (year film)) api_key)
       (fun movie_data =>
          match movie_data with
          | None => Ok film
          | Some d =>
              bind (as_dict d)
                   (fun d =>
                      Ok (mkFilm (letterboxd_id film)
                                 (match tmdb_id film with
                                  | None => get_id d
                                  | Some i => Some i
                                  end)
                                 (title film) (year film)
                                 (letterboxd_url film) (rating film)
                                 (watched_date film) (rewatch film) (review film)
                                 (image_url (get_poster_path d))
                                 (image_url (get_poster_path d))))
          end).
Proof.
  intros H. unfold enrich_film_with_tmdb.
  destruct (tmdb_id film) as [i |]; [| reflexivity].
  simpl in H. destruct (i =? 0); [reflexivity | discriminate].
Qed.

(** What a search returns is nothing or a movie object. *)
Lemma search_movie_object (client : AsyncClient) (title : string)
    (year : option Z) (api_key : string) (d : Json) :
  _search_movie client title year api_key = Ok (Some d) -> as_dict d = Ok d.
Proof.
  unfold _search_movie.
  destruct (negb (status_code (client search_url (search_params title year api_key))
                  =? 200)); [discriminate |].
  destruct (decode _) as [data |]; simpl; [| discriminate].
  destruct (as_dict data) as [data' |]; simpl; [| discriminate].
  destruct (get_results data') as [| first rest]; intros H; inversion H.
  reflexivity.
Qed.

Ltac enrich_cases client film api_key :=
  unfold enrich_film_with_tmdb, bind;
  destruct (match tmdb_id film with
            | Some i => if negb (i =? 0) then _fetch_movie_by_id client i api_key
                        else _search_movie client (title film) (Some (year film)) api_key
            | None => _search_movie client (title film) (Some (year film)) api_key
            end) as [[?d |] | ?e];
  [ match goal with d : Json |- _ => destruct (as_dict d) end | | ].

(** Whatever the movie database answers, an enrichment that changes the film
    gives it one and the same URL as poster and as backdrop. *)
Lemma enrich_backdrop_is_poster (client : AsyncClient) (film f' : Film)
    (api_key : string) :
  enrich_film_with_tmdb client film api_key = Ok f' ->
  f' = film \/ backdrop_url f' = poster_url f'.
Proof.
  enrich_cases client film api_key; intros H; inversion H; subst; auto.
Qed.

(** C1. The enrichment of a film whose movie has the poster path
    [/poster.jpg] and the backdrop path [/backdrop.jpg] returns a film whose
    [backdrop_url] is the image template with the POSTER path; and for a
    movie with a backdrop path and no poster path the [backdrop_url] is
    absent.  The backdrop path of the answer is read and never used. *)
Theorem enrich_backdrop_url_from_poster_path :
  (exists f,
      enrich_film_with_tmdb Sample.tmdb Sample.feed_film "key" = Ok f
      /\ poster_url f = Some "https://image.tmdb.org/t/p/w500/poster.jpg"
      /\ backdrop_url f = Some "https://image.tmdb.org/t/p/w500/poster.jpg"
      /\ backdrop_url f <> image_url (backdrop_path Sample.arrival))
  /\ (exists f,
      enrich_film_with_tmdb
        (fun _ _ => mkResponse 200 [] ""
                      (JsonMovie (mkMovie (Some 329865) None (Some "/backdrop.jpg"))))
        Sample.feed_film "key" = Ok f
      /\ backdrop_url f = None).
Proof.
  split; eexists; repeat split; try reflexivity.
  vm_compute. discriminate.
Qed.

(** C2. A film returned by the enrichment has the input's [letterboxd_id],
    [title], [year], [letterboxd_url], [rating], [watched_date], [rewatch]
    and [review]; and a [tmdb_id] the input carries is the output's, whatever
    the lookup or the search returns. *)
Theorem enrich_keeps_source_fields (client : AsyncClient) (film f' : Film)
    (api_key : string) :
  enrich_film_with_tmdb client film api_key = Ok f' ->
  letterboxd_id f' = letterboxd_id film
  /\ title f' = title film
  /\ year f' = year film
  /\ letterboxd_url f' = letterboxd_url film
  /\ rating f' = rating film
  /\ watched_date f' = watched_date film
  /\ rewatch f' = rewatch film
  /\ review f' = review film
  /\ (tmdb_id film <> None -> tmdb_id f' = tmdb_id film)
  /\ (tmdb_id f' <> tmdb_id film -> tmdb_id film = None).
Proof.
  enrich_cases client film api_key; intros H; inversion H; subst; simpl;
    repeat split; try tauto; destruct (tmdb_id film); congruence.
Qed.

Lemma enrich_keeps_source_fields_witness :
  exists f',
    enrich_film_with_tmdb Sample.tmdb Sample.feed_film "key" = Ok f'
    /\ title f' = "Arrival" /\ tmdb_id f' = Some 329865
    /\ poster_url f' <> poster_url Sample.feed_film.
Proof.
  eexists. split; [reflexivity |].
  pose proof (enrich_keeps_source_fields Sample.tmdb Sample.feed_film _ "key" eq_refl)
    as (_ & Ht & _ & _ & _ & _ & _ & _ & Hid & _).
  split; [exact Ht |]. split; [apply Hid; discriminate | discriminate].
Defined.

(** A movie database whose search finds a film and whose lookups fail
    answers every request as it did before, and still the second enrichment
    of a film fails where the first has resolved the ID. *)
Lemma enrich_twice_fails :
  enrich_film_with_tmdb SampleTMDB.search_only Sample.diary_film "key"
  = Ok (mkFilm "letterboxd-viewing-7" (Some 329865) "Arrival" 2016
               "https://letterboxd.com/film/arrival-2016/"
               (Some (Py.Finite (Qmake 9 2))) (Some (Datetime.Date 2025 12 26))
               false None
               (Some "https://image.tmdb.org/t/p/w500/poster.jpg")
               (Some "https://image.tmdb.org/t/p/w500/poster.jpg"))
  /\ enrich_film_with_tmdb SampleTMDB.search_only
       (mkFilm "letterboxd-viewing-7" (Some 329865) "Arrival" 2016
               "https://letterboxd.com/film/arrival-2016/"
               (Some (Py.Finite (Qmake 9 2))) (Some (Datetime.Date 2025 12 26))
               false None
               (Some "https://image.tmdb.org/t/p/w500/poster.jpg")
               (Some "https://image.tmdb.org/t/p/w500/poster.jpg"))
       "key"
     = Raise (TMDBError "TMDB API error: 500").
Proof. split; reflexivity. Qed.

(** C3, amended. When a first enrichment has returned a film with a catalog
    ID, and the lookup of an ID that the search has found does not fail and
    returns nothing or an object with the artwork paths of the search's
    result, enriching the returned film again returns it unchanged. *)
Theorem enrich_idempotent (client : AsyncClient) (film f1 : Film)
    (api_key : string) :
  enrich_film_with_tmdb client film api_key = Ok f1 ->
  tmdb_id f1 <> None ->
  (forall movie,
      _search_movie client (title film) (Some (year film)) api_key = Ok (Some movie) ->
      lookup_agrees client api_key movie) ->
  enrich_film_with_tmdb client f1 api_key = Ok f1.
Proof.
  intros H1 Hid Hagree.
  destruct (tmdb_id film) as [i |] eqn:Ei.
  - destruct (Z.eq_dec i 0) as [-> | Hi].
    + (* The ID 0 is falsy: both calls search. *)
      rewrite enrich_by_search in H1 by (rewrite Ei; reflexivity).
      rewrite Ei in H1.
      destruct (_search_movie client (title film) (Some (year film)) api_key)
        as [[d |] | e] eqn:Es; simpl in H1.
      * rewrite (search_movie_object _ _ _ _ _ Es) in H1. simpl in H1.
        inversion H1; subst; clear H1.
        rewrite enrich_by_search by reflexivity. simpl. rewrite Es. simpl.
        rewrite (search_movie_object _ _ _ _ _ Es). reflexivity.
      * inversion H1; subst; clear H1.
        rewrite enrich_by_search by (rewrite Ei; reflexivity).
        rewrite Es, Ei. reflexivity.
      * discriminate.
    + (* Both calls look the same ID up. *)
      rewrite (enrich_by_id client film api_key i Ei Hi) in H1.
      destruct (_fetch_movie_by_id client i api_key) as [[d |] | e] eqn:Ef;
        simpl in H1.
      * destruct (as_dict d) as [d' |] eqn:Ed; simpl in H1; [| discriminate].
        inversion H1; subst; clear H1.
        rewrite enrich_by_id with (i := i) by (simpl; auto).
        rewrite Ef. simpl. rewrite Ed. reflexivity.
      * inversion H1; subst; clear H1.
        rewrite enrich_by_id with (i := i) by (simpl; auto).
        rewrite Ef. reflexivity.
      * discriminate.
  - (* The first call searches; the second looks up what the search found. *)
    rewrite enrich_by_search in H1 by (rewrite Ei; reflexivity).
    rewrite Ei in H1.
    destruct (_search_movie client (title film) (Some (year film)) api_key)
      as [[d |] | e] eqn:Es; simpl in H1.
    + rewrite (search_movie_object _ _ _ _ _ Es) in H1. simpl in H1.
      inversion H1; subst; clear H1.
      simpl in Hid. destruct (get_id d) as [j |] eqn:Ej; [| congruence].
      destruct (Z.eq_dec j 0) as [-> | Hj].
      * rewrite enrich_by_search by reflexivity.
        simpl. rewrite Es. simpl.
        rewrite (search_movie_object _ _ _ _ _ Es). reflexivity.
      * rewrite enrich_by_id with (i := j) by (simpl; auto).
        pose proof (Hagree d eq_refl j Ej Hj) as Ha.
        destruct (_fetch_movie_by_id client j api_key) as [[d' |] | e'];
          simpl; [| reflexivity | contradiction].
        destruct Ha as (Hd & Hp & _). rewrite Hd. simpl. rewrite Hp. reflexivity.
    + inversion H1; subst. congruence.
    + discriminate.
Qed.

Lemma enrich_idempotent_witness :
  enrich_film_with_tmdb Sample.tmdb
    (mkFilm "letterboxd-viewing-7" (Some 329865) "Arrival" 2016
            "https://letterboxd.com/film/arrival-2016/"
            (Some (Py.Finite (Qmake 9 2))) (Some (Datetime.Date 2025 12 26))
            false None
            (Some "https://image.tmdb.org/t/p/w500/poster.jpg")
            (Some "https://image.tmdb.org/t/p/w500/poster.jpg"))
    "key"
  = Ok (mkFilm "letterboxd-viewing-7" (Some 329865) "Arrival" 2016
            "https://letterboxd.com/film/arrival-2016/"
            (Some (Py.Finite (Qmake 9 2))) (Some (Datetime.Date 2025 12 26))
            false None
            (Some "https://image.tmdb.org/t/p/w500/poster.jpg")
            (Some "https://image.tmdb.org/t/p/w500/poster.jpg")).
Proof.
  apply (enrich_idempotent Sample.tmdb Sample.diary_film _ "key").
  - reflexivity.
  - discriminate.
  - intros movie H. inversion H; subst; clear H.
    intros i Hi _. inversion Hi; subst; clear Hi.
    vm_compute. repeat split; reflexivity.
Defined.

(** A title search that is answered with the status 404 raises the error,
    although the status is the not-found one: the specification's rule
    fails there. *)
Lemma search_404_is_an_error :
  enrich_film_with_tmdb (Sample.status_only 404 []) Sample.diary_film "key"
  = Raise (TMDBError "TMDB search error: 404")
  /\ ~ error_iff_unexpected_status (Sample.status_only 404 []) Sample.diary_film "key".
Proof.
  split; [reflexivity |].
  unfold error_iff_unexpected_status. intros [Hraise _].
  destruct Hraise as [_ H404].
  - eexists. reflexivity.
  - apply H404. reflexivity.
Qed.

(** C4, amended. The enrichment raises the error that carries the status
    exactly when the status of the answer is not 200 and, for a lookup by
    ID, not 404 either (a search answered with 404 is an error); a lookup by
    ID answered with 404, and a search answered with 200 and an object whose
    result set is empty, return the film as it was given. *)
Theorem enrich_error_rule (client : AsyncClient) (film : Film) (api_key : string) :
  let status := status_code (enrich_response client film api_key) in
  let by_id := Py.truthy_int (tmdb_id film) in
  (enrich_film_with_tmdb client film api_key = Raise (api_error by_id status)
   <-> (status <> 200 /\ (by_id = true -> status <> 404)))
  /\ (by_id = true -> status = 404 ->
      enrich_film_with_tmdb client film api_key = Ok film)
  /\ (by_id = false -> status = 200 ->
      json (enrich_response client film api_key) = JsonSearch [] ->
      enrich_film_with_tmdb client film api_key = Ok film).
Proof.
  intros status by_id. subst status by_id.
  destruct (Py.truthy_int (tmdb_id film)) eqn:Eb.
  - (* lookup by ID *)
    destruct (tmdb_id film) as [i |] eqn:Ei; [| discriminate].
    assert (Hi : i <> 0).
    { intros ->. discriminate. }
    rewrite (enrich_by_id client film api_key i Ei Hi).
    unfold enrich_response. rewrite Ei. simpl Py.truthy_int.
    destruct (Z.eqb_spec i 0) as [? | _]; [contradiction |]. simpl negb. cbv iota.
    unfold _fetch_movie_by_id, api_error.
    set (response := client (movie_url i) [("api_key", api_key)]).
    destruct (Z.eqb_spec (status_code response) 404) as [E4 | N4];
      [| destruct (Z.eqb_spec (status_code response) 200) as [E2 | N2]]; simpl;
      (split; [split | split]).
    all: try (intros; discriminate).
    all: try (intros; congruence).
    all: try (intros; split; congruence).
    + intros [_ H]. exfalso. apply H; auto.
    + unfold decode.
      destruct (json response) as [m | r | | |]; simpl; intros H; discriminate.
    + intros [H _]. contradiction.
  - (* search *)
    rewrite (enrich_by_search client film api_key Eb).
    unfold enrich_response. rewrite Eb.
    unfold _search_movie, api_error.
    set (response := client search_url (search_params (title film) (Some (year film)) api_key)).
    destruct (Z.eqb_spec (status_code response) 200) as [E2 | N2]; simpl;
      (split; [split | split]).
    all: try (intros; discriminate).
    all: try (intros; congruence).
    all: try (intros; split; congruence).
    + unfold decode.
      destruct (json response) as [m | [| first rest] | | |]; simpl;
        intros H; discriminate.
    + intros [H _]. contradiction.
    + intros _ _ Hr. unfold decode. rewrite Hr. reflexivity.
Qed.

(** ** The rating of a diary row *)

Lemma remove_rated_prefix (s : string) :
  Py.remove ("rated-" ++ s) "rated-" = Py.remove s "rated-".
Proof. unfold Py.remove. destruct s; reflexivity. Qed.

Lemma remove_without_r (s : string) :
  forallb (fun c => negb (Ascii.eqb c "r")) (Py.chars s) = true ->
  Py.remove s "rated-" = s.
Proof.
  unfold Py.remove. induction s as [| c s IH]; [reflexivity |].
  intros H. apply andb_prop in H. destruct H as [Hc Hs].
  change (Py.remove_from "rated-" 0 (String c s))
    with (if String.prefix "rated-" (String c s)
          then Py.remove_from "rated-" 5 s
          else String c (Py.remove_from "rated-" 0 s)).
  change (String.prefix "rated-" (String c s))
    with (if ascii_dec "r" c then String.prefix "ated-" s else false).
  destruct (ascii_dec "r" c) as [<- | _]; [discriminate |].
  f_equal. apply IH. exact Hs.
Qed.

Lemma int_char_not_r (c : ascii) :
  int_char c = true -> negb (Ascii.eqb c "r") = true.
Proof.
  destruct (Ascii.eqb_spec c "r") as [-> | _]; [discriminate | reflexivity].
Qed.

Lemma int_digits_chars (cs : list ascii) :
  forall acc after n, Py.int_digits acc after cs = Some n ->
                      forallb int_char cs = true.
Proof.
  induction cs as [| c cs IH]; intros acc after n H; simpl in *; [reflexivity |].
  unfold int_char at 1.
  destruct (Py.is_digit c) eqn:Ed.
  - rewrite orb_true_r. simpl. eapply IH; eauto.
  - destruct (Ascii.eqb c "_") eqn:Eu; simpl in H.
    + destruct after; [| discriminate].
      rewrite !orb_true_r. simpl. eapply IH; eauto.
    + discriminate.
Qed.

Lemma split_sign_chars (cs : list ascii) :
  forallb int_char (snd (Py.split_sign cs)) = true -> forallb int_char cs = true.
Proof.
  destruct cs as [| c cs]; simpl; [reflexivity |].
  unfold int_char at 2.
  destruct (Ascii.eqb c "-") eqn:Em; simpl.
  - intros ->. rewrite !orb_true_r. reflexivity.
  - destruct (Ascii.eqb c "+") eqn:Ep; simpl.
    + intros ->. rewrite !orb_true_r. reflexivity.
    + unfold int_char at 1. rewrite Em, Ep. auto.
Qed.

Lemma lstrip_c_chars (cs : list ascii) :
  forallb int_char (Py.lstrip_c cs) = true -> forallb int_char cs = true.
Proof.
  induction cs as [| c cs IH]; simpl; [reflexivity |].
  destruct (Py.is_space_c c) eqn:Es.
  - intros H. unfold int_char at 1. rewrite Es. simpl. auto.
  - simpl. auto.
Qed.

Lemma forallb_rev {A : Type} (f : A -> bool) (l : list A) :
  forallb f (rev l) = forallb f l.
Proof.
  induction l as [| a l IH]; simpl; [reflexivity |].
  rewrite forallb_app, IH. simpl. rewrite andb_true_r. apply andb_comm.
Qed.

Lemma rstrip_c_chars (cs : list ascii) :
  forallb int_char (Py.rstrip_c cs) = true -> forallb int_char cs = true.
Proof.
  unfold Py.rstrip_c. rewrite forallb_rev. intros H.
  apply lstrip_c_chars in H. rewrite forallb_rev in H. exact H.
Qed.

(** A string that [int] accepts is made of its characters only. *)
Lemma int_chars (s : string) (n : Z) :
  Py.int s = Some n -> forallb int_char (Py.chars s) = true.
Proof.
  unfold Py.int. intros H.
  apply lstrip_c_chars, rstrip_c_chars, split_sign_chars.
  destruct (Py.split_sign (Py.rstrip_c (Py.lstrip_c (Py.chars s)))) as [neg body].
  simpl. destruct (Py.int_digits 0 false body) as [m |] eqn:Ed; [| discriminate].
  eapply int_digits_chars; eauto.
Qed.

Lemma forallb_impl {A : Type} (f g : A -> bool) (l : list A) :
  (forall a, f a = true -> g a = true) ->
  forallb f l = true -> forallb g l = true.
Proof.
  intros Hfg. induction l as [| a l IH]; simpl; [reflexivity |].
  intros H. apply andb_prop in H. destruct H as [Ha Hl].
  rewrite (Hfg a Ha), (IH Hl). reflexivity.
Qed.

(** The suffix that [int] reads is what follows [rated-]. *)
Lemma rated_suffix (suffix : string) (n : Z) :
  Py.int suffix = Some n ->
  Py.int (Py.remove ("rated-" ++ suffix) "rated-") = Some n.
Proof.
  intros H. rewrite remove_rated_prefix, remove_without_r; [exact H |].
  eapply forallb_impl; [apply int_char_not_r | eapply int_chars; eauto].
Qed.

Lemma rating_of_skipped (classes : list string) :
  forallb skipped_class classes = true -> rating_of_classes classes = Ok None.
Proof.
  induction classes as [| cls rest IH]; simpl; [reflexivity |].
  intros H. apply andb_prop in H. destruct H as [Hc Hr].
  unfold skipped_class in Hc.
  destruct (Py.startswith cls "rated-"); simpl in Hc; [| auto].
  destruct (Py.int (Py.remove cls "rated-")); [| auto].
  rewrite andb_false_r in Hc. discriminate.
Qed.

Lemma rating_after_skipped (before rest : list string) :
  forallb skipped_class before = true ->
  rating_of_classes (before ++ rest) = rating_of_classes rest.
Proof.
  induction before as [| cls before IH]; simpl; [reflexivity |].
  intros H. apply andb_prop in H. destruct H as [Hc Hr].
  unfold skipped_class in Hc.
  destruct (Py.startswith cls "rated-"); simpl in Hc; [| auto].
  destruct (Py.int (Py.remove cls "rated-")); [| auto].
  rewrite andb_false_r in Hc. discriminate.
Qed.

(** The token [rated-0] is a rating, the float 0.0: it is not absent. *)
Lemma rated_0_is_a_rating :
  _extract_rating (SampleRow.row ["rating"; "rated-0"] ["col-rewatch"])
  = Ok (Some (Py.Finite (Qmake 0 2)))
  /\ _extract_rating (SampleRow.row ["rating"; "rated-0"] ["col-rewatch"])
     <> Ok None.
Proof. split; [reflexivity | discriminate]. Qed.

(** C5, amended. In a row whose rating span has the classes [classes], the
    first class that is not passed over decides.  A class that starts with
    [rated-] is read by removing every [rated-] from it and giving the rest
    to [int]: when [int] reads [n], within the range of the floats, the
    rating is [n / 2], for [n = 0] too (the rating 0.0, not an absent one);
    for [rated-] followed by a suffix that [int] reads, the rest is the
    suffix.  A class is passed over when it does not start with [rated-] or
    when the rest is an ASCII text that [int] rejects; when every class is
    passed over the rating is absent and nothing is raised. *)
Theorem extract_rating_half_stars (row rating_span : PageElement)
    (classes : list string) :
  Soup.select_one row rating_selector = Some rating_span ->
  Soup.get_class rating_span = Some classes ->
  (forall before cls n rest,
      classes = (before ++ cls :: rest)%list ->
      forallb skipped_class before = true ->
      Py.startswith cls "rated-" = true ->
      Py.int (Py.remove cls "rated-") = Some n ->
      Z.abs n < float_bound ->
      _extract_rating row = Ok (Some (Py.Finite (Qmake n 2))))
  /\ (forall suffix n,
        Py.int suffix = Some n ->
        Py.startswith ("rated-" ++ suffix) "rated-" = true
        /\ Py.int (Py.remove ("rated-" ++ suffix) "rated-") = Some n)
  /\ (forallb skipped_class classes = true -> _extract_rating row = Ok None).
Proof.
  intros Hsel Hcls. unfold _extract_rating. rewrite Hsel, Hcls. split; [| split].
  - intros before cls n rest -> Hbefore Hstart Hint Hn.
    rewrite (rating_after_skipped _ _ Hbefore).
    cbn [rating_of_classes]. rewrite Hstart, Hint.
    unfold Py.truediv_2. fold float_bound.
    destruct (Z.ltb_spec (Z.abs n) float_bound) as [_ | Hge]; [reflexivity | lia].
  - intros suffix n Hint. split; [destruct suffix; reflexivity |].
    apply rated_suffix. exact Hint.
  - apply rating_of_skipped.
Qed.

Lemma extract_rating_half_stars_witness :
  _extract_rating (SampleRow.row ["rating"; "rated-7"] ["col-rewatch"])
  = Ok (Some (Py.Finite (Qmake 7 2)))
  /\ _extract_rating (SampleRow.row ["rating"; "rated-10"] ["col-rewatch"])
     = Ok (Some (Py.Finite (Qmake 10 2)))
  /\ _extract_rating (SampleRow.row ["rating"; "rated-rated-7"] ["col-rewatch"])
     = Ok (Some (Py.Finite (Qmake 7 2)))
  /\ _extract_rating (SampleRow.row ["rating"; "rated-x7"] ["col-rewatch"])
     = Ok None.
Proof.
  split; [| split; [| split]].
  - refine (proj1 (extract_rating_half_stars
                     (SampleRow.row ["rating"; "rated-7"] ["col-rewatch"])
                     _ _ eq_refl eq_refl)
                  ["rating"] "rated-7" 7 [] eq_refl eq_refl eq_refl eq_refl _).
    reflexivity.
  - refine (proj1 (extract_rating_half_stars
                     (SampleRow.row ["rating"; "rated-10"] ["col-rewatch"])
                     _ _ eq_refl eq_refl)
                  ["rating"] "rated-10" 10 [] eq_refl eq_refl eq_refl eq_refl _).
    reflexivity.
  - refine (proj1 (extract_rating_half_stars
                     (SampleRow.row ["rating"; "rated-rated-7"] ["col-rewatch"])
                     _ _ eq_refl eq_refl)
                  ["rating"] "rated-rated-7" 7 [] eq_refl eq_refl eq_refl eq_refl _).
    reflexivity.
  - refine (proj2 (proj2 (extract_rating_half_stars
                            (SampleRow.row ["rating"; "rated-x7"] ["col-rewatch"])
                            _ _ eq_refl eq_refl)) eq_refl).
Defined.

(** ** The rows of the diary *)

(** What a parsed row says about the film it returns. *)
Lemma parse_diary_row_fields (row : PageElement) (film : Film) :
  _parse_diary_row row = Ok (Some film) ->
  _extract_rating row = Ok (rating film)
  /\ watched_date film = _extract_watched_date row
  /\ rewatch film =
     match Soup.select_one row rewatch_selector with
     | Some td => match Soup.get_class td with
                  | Some classes => negb (Py.mem "icon-status-off" classes)
                  | None => false
                  end
     | None => false
     end
  /\ tmdb_id film = None /\ review film = None.
Proof.
  unfold _parse_diary_row.
  destruct (Soup.get row "data-viewing-id") as [viewing_id |]; [| discriminate].
  destruct (String.eqb viewing_id ""); [discriminate |].
  destruct (Soup.select_one row poster_selector) as [poster_div |]; [| discriminate].
  destruct (String.eqb (Soup.get_default poster_div "data-item-name" "") ""
            || String.eqb (Soup.get_default poster_div "data-item-slug" "") "");
    [discriminate |].
  destruct (_extract_rating row) as [rating |]; simpl; [| discriminate].
  intros H. inversion H; subst; clear H. simpl.
  destruct (Soup.select_one row rewatch_selector); auto.
Qed.

Lemma select_one_matches (row e : PageElement) (sel : Soup.Selector) :
  Soup.select_one row sel = Some e ->
  In e (Soup.descendants row) /\ Soup.matches sel e = true.
Proof. unfold Soup.select_one. apply find_some. Qed.

Lemma matches_has_class (sel : Soup.Selector) (e : PageElement) :
  Soup.matches sel e = true -> Soup.has_class (Soup.sel_class sel) e = true.
Proof.
  destruct e as [s | n c a k]; simpl; [discriminate |].
  intros H. apply andb_prop in H. destruct H as [H _].
  apply andb_prop in H. destruct H as [_ H]. exact H.
Qed.

Lemma select_one_absent (row : PageElement) (sel : Soup.Selector) :
  marker_present (Soup.sel_class sel) row = false ->
  Soup.select_one row sel = None.
Proof.
  intros H. destruct (Soup.select_one row sel) as [e |] eqn:E; [| reflexivity].
  apply select_one_matches in E. destruct E as [Hin Hm].
  apply matches_has_class in Hm.
  assert (marker_present (Soup.sel_class sel) row = true) as Hp.
  { unfold marker_present. apply existsb_exists. exists e. auto. }
  congruence.
Qed.

(** The rule of the code for a row that parses to a film: the film is a
    rewatch exactly when the row has a rewatch cell, [td.col-rewatch], whose
    classes do not hold [icon-status-off]; without such a cell it is none. *)
Lemma diary_rewatch_rule (row : PageElement) (film : Film) :
  _parse_diary_row row = Ok (Some film) ->
  (marker_present "col-rewatch" row = false ->
   marker_present "icon-status-off" row = false ->
   rewatch film = false)
  /\ (rewatch film = true <->
      exists td classes,
        Soup.select_one row rewatch_selector = Some td
        /\ Soup.get_class td = Some classes
        /\ Py.mem "col-rewatch" classes = true
        /\ Py.mem "icon-status-off" classes = false).
Proof.
  intros H. apply parse_diary_row_fields in H.
  destruct H as (_ & _ & Hre & _). rewrite Hre. clear Hre. split.
  - intros Hcol _.
    rewrite (select_one_absent row rewatch_selector Hcol). reflexivity.
  - destruct (Soup.select_one row rewatch_selector) as [td |] eqn:Etd.
    + pose proof (select_one_matches _ _ _ Etd) as [_ Hm].
      apply matches_has_class in Hm. unfold Soup.has_class in Hm. simpl in Hm.
      destruct (Soup.get_class td) as [classes |] eqn:Ecls; [| discriminate].
      split.
      * intros Hoff. exists td, classes. repeat split; auto.
        destruct (Py.mem "icon-status-off" classes); [discriminate | reflexivity].
      * intros (td' & classes' & Htd & Hcls & _ & Hoff).
        inversion Htd; subst td'. rewrite Ecls in Hcls.
        inversion Hcls; subst. rewrite Hoff. reflexivity.
    + split; [discriminate |].
      intros (td' & classes' & Htd & _). discriminate.
Qed.

(** C6. A diary row whose rewatch cell carries neither the rewatch marker
    of the code's comment, [icon-rewatch], nor the marker [icon-status-off],
    and that has neither class anywhere else, parses to a film with
    [rewatch = true]: the code tests that [icon-status-off] is missing from
    the cell and never that [icon-rewatch] is there. *)
Theorem diary_rewatch_without_marker :
  marker_present "icon-rewatch" (SampleRow.row ["rating"; "rated-7"] ["col-rewatch"])
  = false
  /\ marker_present "icon-status-off"
       (SampleRow.row ["rating"; "rated-7"] ["col-rewatch"]) = false
  /\ exists film,
       _parse_diary_row (SampleRow.row ["rating"; "rated-7"] ["col-rewatch"])
       = Ok (Some film)
       /\ rewatch film = true.
Proof.
  split; [reflexivity |]. split; [reflexivity |].
  eexists. split; reflexivity.
Qed.

(** ** The review of a feed item *)

Lemma review_loop_filter (paragraphs : list PageElement) :
  forall review_parts,
    review_loop paragraphs review_parts
    = (review_parts ++ filter qualifies (map Soup.get_text_strip paragraphs))%list.
Proof.
  induction paragraphs as [| p rest IH]; intros acc; simpl.
  - rewrite app_nil_r. reflexivity.
  - unfold qualifies at 1.
    destruct (String.eqb (Soup.get_text_strip p) "") eqn:Ee.
    + (* no visible text: with or without an image, nothing is added *)
      apply String.eqb_eq in Ee. rewrite Ee. simpl.
      destruct (Soup.find_tag p "img"); simpl; apply IH.
    + rewrite andb_false_r. simpl.
      destruct (Py.startswith (Soup.get_text_strip p) SPOILER_WARNING); simpl.
      * apply IH.
      * rewrite IH, <- app_assoc. reflexivity.
Qed.

Lemma join_nonempty (sep p : string) (rest : list string) :
  p <> "" -> Py.join sep (p :: rest) <> "".
Proof.
  intros Hp. destruct p as [| c p]; [contradiction |].
  simpl. destruct rest; discriminate.
Qed.

Lemma review_of_soup_nonempty (soup : PageElement) :
  review_of_soup soup <> Some "".
Proof.
  unfold review_of_soup.
  destruct (filter qualifies (map Soup.get_text_strip (Soup.find_all soup "p")))
    as [| t texts] eqn:E; cbn [Py.is_nil]; [discriminate |].
  assert (Hq : qualifies t = true).
  { assert (Hin : In t (t :: texts)) by (left; reflexivity).
    rewrite <- E in Hin. apply filter_In in Hin. tauto. }
  intros H. injection H as Hj.
  apply (join_nonempty (LF ++ LF) t texts); [| exact Hj].
  intros ->. discriminate.
Qed.

(** C7. The review of an item is absent when the item has no description
    text, and otherwise it is the review of the parsed description: the
    visible texts of its qualifying paragraphs in document order, joined by
    a blank line, and absent when no paragraph qualifies.  An image-only
    paragraph does not qualify, nor does one whose text begins with the
    spoiler warning; the review is never the empty string. *)
Theorem extract_review_is_qualifying_paragraphs
    (BeautifulSoup : string -> string -> PageElement) (item : Element) :
  _extract_review_from_description BeautifulSoup item
  = match ET.find item "description" with
    | Some desc_elem =>
        match ET.text desc_elem with
        | Some desc_text => review_of_soup (BeautifulSoup desc_text "lxml")
        | None => None
        end
    | None => None
    end
  /\ (forall p, image_only p = true -> qualifies (Soup.get_text_strip p) = false)
  /\ (forall p, Py.startswith (Soup.get_text_strip p) SPOILER_WARNING = true ->
                qualifies (Soup.get_text_strip p) = false)
  /\ _extract_review_from_description BeautifulSoup item <> Some "".
Proof.
  assert (Hfirst :
    _extract_review_from_description BeautifulSoup item
    = match ET.find item "description" with
      | Some desc_elem =>
          match ET.text desc_elem with
          | Some desc_text => review_of_soup (BeautifulSoup desc_text "lxml")
          | None => None
          end
      | None => None
      end).
  { unfold _extract_review_from_description, review_of_soup.
    destruct (ET.find item "description") as [desc_elem |]; [| reflexivity].
    destruct (ET.text desc_elem) as [desc_text |]; [| reflexivity].
    rewrite review_loop_filter. reflexivity. }
  split; [exact Hfirst |]. split; [| split].
  - intros p Hp. unfold image_only in Hp. unfold qualifies.
    destruct (Soup.find_tag p "img"); [| discriminate].
    rewrite Hp. reflexivity.
  - intros p Hp. unfold qualifies. rewrite Hp. apply andb_false_r.
  - rewrite Hfirst.
    destruct (ET.find item "description") as [desc_elem |]; [| discriminate].
    destruct (ET.text desc_elem) as [desc_text |]; [| discriminate].
    apply review_of_soup_nonempty.
Qed.

(** A paragraph that holds a no-break space only (U+00A0, the bytes C2 A0)
    has no visible text, and an image beside it does not make it qualify. *)
Lemma no_break_space_is_no_text :
  Soup.get_text_strip
    (Tag "p" None []
       [Tag "img" None [] [];
        NavigableString (Py.str [ascii_of_nat 194; ascii_of_nat 160])])
  = ""
  /\ image_only
       (Tag "p" None []
          [Tag "img" None [] [];
           NavigableString (Py.str [ascii_of_nat 194; ascii_of_nat 160])])
     = true.
Proof. split; reflexivity. Qed.

(** ** Malformed items *)

(** A diary row raises nothing but the overflow of a rating beyond the
    floats: a malformed rating token or date link is never raised. *)
Lemma rating_of_classes_raises (classes : list string) (e : Exception) :
  rating_of_classes classes = Raise e -> e = OverflowError.
Proof.
  induction classes as [| cls rest IH]; simpl; [discriminate |].
  destruct (Py.startswith cls "rated-"); [| exact IH].
  destruct (Py.int (Py.remove cls "rated-")) as [n |]; [| exact IH].
  unfold Py.truediv_2. destruct (Z.abs n <? 2 ^ 1024 - 2 ^ 970); simpl.
  - discriminate.
  - intros H. inversion H. reflexivity.
Qed.

Lemma parse_diary_row_raises (row : PageElement) (e : Exception) :
  _parse_diary_row row = Raise e -> e = OverflowError.
Proof.
  unfold _parse_diary_row.
  destruct (Soup.get row "data-viewing-id") as [viewing_id |]; [| discriminate].
  destruct (String.eqb viewing_id ""); [discriminate |].
  destruct (Soup.select_one row poster_selector) as [poster_div |]; [| discriminate].
  destruct (String.eqb (Soup.get_default poster_div "data-item-name" "") ""
            || String.eqb (Soup.get_default poster_div "data-item-slug" "") "");
    [discriminate |].
  destruct (_extract_rating row) as [rating | e'] eqn:Er; simpl; [discriminate |].
  intros H. inversion H; subst. clear H.
  unfold _extract_rating in Er.
  destruct (Soup.select_one row rating_selector) as [span |]; [| discriminate].
  destruct (Soup.get_class span) as [classes |]; [| discriminate].
  eapply rating_of_classes_raises; eauto.
Qed.

(** A feed item with a guid, a title and a year raises [ValueError] when
    the text of its rating is one that [float] rejects. *)
Lemma parse_rss_item_malformed_rating
    (BeautifulSoup : string -> string -> PageElement)
    (fromisoformat : string -> option Datetime.date)
    (item : Element) (guid title year_text rating_text : string) (y : Z) :
  child_text (ET.find item "guid") = Some guid ->
  child_text (ET.find_ns item NAMESPACES "letterboxd" "filmTitle") = Some title ->
  child_text (ET.find_ns item NAMESPACES "letterboxd" "filmYear") = Some year_text ->
  Py.int year_text = Some y ->
  child_text (ET.find_ns item NAMESPACES "letterboxd" "memberRating") = Some rating_text ->
  rating_text <> "" ->
  Py.float rating_text = None ->
  _parse_rss_item BeautifulSoup fromisoformat item = Raise ValueError.
Proof.
  intros Hg Ht Hy Hint Hr Hne Hf. unfold _parse_rss_item.
  rewrite Hg, Ht, Hy, Hint. simpl bind. cbv beta.
  unfold optional_field at 1. rewrite Hr. simpl Py.truthy_str.
  destruct (String.eqb_spec rating_text "") as [-> | _]; [contradiction |].
  simpl. rewrite Hf. reflexivity.
Qed.

(** C8. A feed whose one item has the rating text [abc] makes
    [parse_rss_feed] raise [ValueError], and so does an item whose
    watched date [date.fromisoformat] rejects: the item is neither skipped
    nor given an absent field.  The diary parser absorbs both: a row with
    the rating token [rated-abc] and the date link [/for/2025/13/45/] parses
    to a film without rating and without date. *)
Theorem feed_item_malformation_escalates
    (BeautifulSoup : string -> string -> PageElement)
    (fromisoformat : string -> option Datetime.date) :
  parse_rss_feed BeautifulSoup
    (fun _ => inr (SampleFeed.feed [SampleFeed.item "abc" "2025-12-26"]))
    fromisoformat (Sample.status_only 200 []) "https://letterboxd.com/someone/rss/"
  = Raise ValueError
  /\ (forall watched_text,
        watched_text <> "" -> fromisoformat watched_text = None ->
        parse_rss_feed BeautifulSoup
          (fun _ => inr (SampleFeed.feed [SampleFeed.item "4.5" watched_text]))
          fromisoformat (Sample.status_only 200 []) "https://letterboxd.com/someone/rss/"
        = Raise ValueError)
  /\ (exists film,
        _parse_diary_row SampleFeed.malformed_row = Ok (Some film)
        /\ rating film = None /\ watched_date film = None).
Proof.
  split; [reflexivity |]. split.
  - intros watched_text Hne Hiso.
    unfold parse_rss_feed. simpl.
    unfold _parse_rss_item. simpl.
    unfold optional_field. simpl.
    destruct (String.eqb_spec watched_text "") as [-> | _]; [contradiction |].
    simpl. rewrite Hiso. reflexivity.
  - eexists. split; [reflexivity |]. split; reflexivity.
Qed.

(** ** Rate limits *)

(** A diary page answered with 429 raises the rate limit with the default
    of the class, whatever the headers of the answer say. *)
Lemma diary_429_default
    (BeautifulSoup : string -> string -> PageElement)
    (client : AsyncClient) (diary_url : string) (page : Z) :
  status_code (client (diary_url ++ "/page/" ++ Py.str_of_int page ++ "/") []) = 429 ->
  parse_diary_page BeautifulSoup client diary_url page = Raise (RateLimitError None).
Proof.
  intros H. unfold parse_diary_page. rewrite H. reflexivity.
Qed.

(** C9. A feed fetch answered with 429 and [Retry-After: 120] raises the
    rate limit carrying 120, and without the header the rate limit carrying
    60; a diary page fetch answered with 429 and [Retry-After: 120] raises
    the rate limit without the 120 of the header, with the default of the
    class; and a feed fetch answered with 429 and a date in [Retry-After]
    raises [ValueError], no rate limit. *)
Theorem rate_limit_retry_after
    (BeautifulSoup : string -> string -> PageElement)
    (fromstring : string -> string + Element)
    (fromisoformat : string -> option Datetime.date)
    (url : string) (page : Z) :
  parse_rss_feed BeautifulSoup fromstring fromisoformat
    (Sample.status_only 429 [("Retry-After", "120")]) url
  = Raise (RateLimitError (Some 120))
  /\ parse_rss_feed BeautifulSoup fromstring fromisoformat
       (Sample.status_only 429 []) url
     = Raise (RateLimitError (Some 60))
  /\ parse_diary_page BeautifulSoup
       (Sample.status_only 429 [("Retry-After", "120")]) url page
     = Raise (RateLimitError None)
  /\ parse_rss_feed BeautifulSoup fromstring fromisoformat
       (Sample.status_only 429 [("Retry-After", "Wed, 21 Oct 2015 07:28:00 GMT")]) url
     = Raise ValueError.
Proof. repeat split; reflexivity. Qed.

(** ** The pages of the diary *)

Lemma parse_diary_page_has_more
    (BeautifulSoup : string -> string -> PageElement)
    (client : AsyncClient) (diary_url : string) (page : Z)
    (films : list Film) (has_more : bool) :
  parse_diary_page BeautifulSoup client diary_url page = Ok (films, has_more) ->
  has_more = negb (Py.is_nil films).
Proof.
  unfold parse_diary_page.
  destruct (status_code (client (diary_url ++ "/page/" ++ Py.str_of_int page ++ "/") [])
            =? 429); [discriminate |].
  destruct (raise_for_status
              (client (diary_url ++ "/page/" ++ Py.str_of_int page ++ "/") []));
    simpl; [| discriminate].
  destruct (collect _parse_diary_row _) as [fs | e]; simpl; [| discriminate].
  intros H. inversion H; subst; reflexivity.
Qed.

(** C10. A diary page that parses returns [has_more = true] exactly when the
    list of films it returns is not empty. *)
Theorem has_more_iff_films
    (BeautifulSoup : string -> string -> PageElement)
    (client : AsyncClient) (diary_url : string) (page : Z)
    (films : list Film) (has_more : bool) :
  parse_diary_page BeautifulSoup client diary_url page = Ok (films, has_more) ->
  (has_more = true <-> films <> []).
Proof.
  intros H. apply parse_diary_page_has_more in H. subst has_more.
  destruct films; simpl; split; congruence.
Qed.

Lemma has_more_iff_films_witness :
  parse_diary_page (fun _ _ => SampleFeed.page) (Sample.status_only 200 [])
    "https://letterboxd.com/someone/diary" 1
  = Ok ([SampleFeed.home_alone], true)
  /\ [SampleFeed.home_alone] <> [].
Proof.
  split; [reflexivity |].
  exact (proj1 (has_more_iff_films (fun _ _ => SampleFeed.page)
                  (Sample.status_only 200 [])
                  "https://letterboxd.com/someone/diary" 1
                  [SampleFeed.home_alone] true eq_refl) eq_refl).
Defined.

(** The pagination driver: an empty page ends it with the films collected
    so far and without a pause; a page with films is followed by a pause of
    two seconds and the next page, the test of [has_more] never ending the
    loop by itself. *)
Lemma parse_all_stops_on_empty_page
    (BeautifulSoup : string -> string -> PageElement)
    (fuel : nat) (client : AsyncClient) (diary_url : string) (on_page : bool)
    (page : Z) (all_films : list Film) (has_more : bool) :
  parse_diary_page BeautifulSoup client diary_url page = Ok ([], has_more) ->
  parse_all_from BeautifulSoup (S fuel) client diary_url on_page page all_films
  = (((if on_page then [OnPage page] else []) ++ [Fetch page])%list,
     Some (Ok all_films)).
Proof. intros H. simpl. rewrite H. reflexivity. Qed.

Lemma parse_all_goes_on
    (BeautifulSoup : string -> string -> PageElement)
    (fuel : nat) (client : AsyncClient) (diary_url : string) (on_page : bool)
    (page : Z) (all_films films : list Film) (has_more : bool) :
  parse_diary_page BeautifulSoup client diary_url page = Ok (films, has_more) ->
  films <> [] ->
  parse_all_from BeautifulSoup (S fuel) client diary_url on_page page all_films
  = let (later, outcome) :=
      parse_all_from BeautifulSoup fuel client diary_url on_page (page + 1)
                     (all_films ++ films)%list in
    ((((if on_page then [OnPage page] else []) ++ [Fetch page]) ++ Sleep 2 :: later)%list,
     outcome).
Proof.
  intros H Hne. pose proof (parse_diary_page_has_more _ _ _ _ _ _ H) as Hm.
  cbn [parse_all_from]. rewrite H.
  destruct films as [| f films]; [contradiction |].
  subst has_more. reflexivity.
Qed.

(** * Further properties *)

(** ** The enrichment: requests and results *)

(** X1. An enrichment reads the movie database through one request only:
    two clients that answer that request alike give the same outcome,
    whatever else they would answer. *)
Theorem enrich_single_request (c1 c2 : AsyncClient) (film : Film) (api_key : string) :
  enrich_response c1 film api_key = enrich_response c2 film api_key ->
  enrich_film_with_tmdb c1 film api_key = enrich_film_with_tmdb c2 film api_key.
Proof.
  unfold enrich_response.
  destruct (Py.truthy_int (tmdb_id film)) eqn:Eb; intros H.
  - destruct (tmdb_id film) as [i |] eqn:Ei; [| discriminate].
    assert (Hi : i <> 0) by (intros ->; discriminate).
    rewrite !(enrich_by_id _ film api_key i Ei Hi).
    unfold _fetch_movie_by_id. rewrite H. reflexivity.
  - rewrite !(enrich_by_search _ film api_key Eb).
    unfold _search_movie. rewrite H. reflexivity.
Qed.

Lemma enrich_single_request_witness :
  enrich_film_with_tmdb SampleTMDB.search_only Sample.diary_film "key"
  = enrich_film_with_tmdb
      (fun url params => mkResponse 200 [] "" (JsonSearch [Sample.arrival; SampleTMDB.contact]))
      Sample.diary_film "key".
Proof.
  apply enrich_single_request. reflexivity.
Defined.

(** X2. A film without a usable catalog ID (none, or 0) is searched by
    title, and the first result of a 200 answer decides alone: the film gets
    the poster of the first result as both images and, when it had no ID at
    all, the ID of the first result; an ID 0 stays 0. *)
Theorem enrich_first_search_result (client : AsyncClient) (film : Film)
    (api_key : string) (first : Movie) (rest : list Movie) :
  Py.truthy_int (tmdb_id film) = false ->
  status_code (client search_url (search_params (title film) (Some (year film)) api_key))
  = 200 ->
  get_results (json (client search_url
                       (search_params (title film) (Some (year film)) api_key)))
  = first :: rest ->
  enrich_film_with_tmdb client film api_key
  = Ok (mkFilm (letterboxd_id film)
               (match tmdb_id film with
                | None => movie_id first
                | Some i => Some i
                end)
               (title film) (year film) (letterboxd_url film) (rating film)
               (watched_date film) (rewatch film) (review film)
               (image_url (poster_path first)) (image_url (poster_path first))).
Proof.
  intros Hb Hs Hr. rewrite (enrich_by_search client film api_key Hb).
  unfold _search_movie, decode. rewrite Hs. simpl negb. cbv iota.
  destruct (json (client search_url
                    (search_params (title film) (Some (year film)) api_key)))
    as [m | results | | |]; simpl in Hr; try discriminate.
  subst results. reflexivity.
Qed.

Lemma enrich_first_search_result_witness :
  enrich_film_with_tmdb SampleTMDB.search_only SampleTMDB.zero_id_film "key"
  = Ok (mkFilm "letterboxd-review-9" (Some 0) "Arrival" 0
               "https://letterboxd.com/film/arrival-2016/"
               None None false None
               (Some "https://image.tmdb.org/t/p/w500/poster.jpg")
               (Some "https://image.tmdb.org/t/p/w500/poster.jpg")).
Proof.
  exact (enrich_first_search_result SampleTMDB.search_only SampleTMDB.zero_id_film
           "key" Sample.arrival [SampleTMDB.contact] eq_refl eq_refl eq_refl).
Defined.

Lemma image_url_absent (path : option string) :
  image_url path = None <-> (path = None \/ path = Some "").
Proof.
  destruct path as [p |]; simpl.
  - destruct (String.eqb_spec p "") as [-> | Hne]; split; auto.
    + discriminate.
    + intros [H | H]; [discriminate | congruence].
  - split; auto.
Qed.

(** X3. A lookup by a non-zero ID that is answered with 200 and a movie
    object returns a film: the ID is kept, and [poster_url] is the image
    base, [/w500] and the poster path of the object, absent exactly when
    that path is missing or empty. *)
Theorem enrich_lookup_success (client : AsyncClient) (film : Film)
    (api_key : string) (i : Z) (movie : Movie) :
  tmdb_id film = Some i -> i <> 0 ->
  status_code (client (movie_url i) [("api_key", api_key)]) = 200 ->
  json (client (movie_url i) [("api_key", api_key)]) = JsonMovie movie ->
  exists f',
    enrich_film_with_tmdb client film api_key = Ok f'
    /\ tmdb_id f' = Some i
    /\ (forall p, poster_path movie = Some p -> p <> "" ->
                  poster_url f' = Some ("https://image.tmdb.org/t/p/w500" ++ p))
    /\ (poster_url f' = None <->
        (poster_path movie = None \/ poster_path movie = Some "")).
Proof.
  intros Hid Hi Hs Hj. rewrite (enrich_by_id client film api_key i Hid Hi).
  unfold _fetch_movie_by_id, decode. rewrite Hs, Hj. simpl.
  eexists. split; [reflexivity |]. simpl. split; [reflexivity |]. split.
  - intros p Hp Hne. rewrite Hp. simpl.
    destruct (String.eqb_spec p "") as [-> | _]; [contradiction | reflexivity].
  - apply image_url_absent.
Qed.

Lemma enrich_lookup_success_witness :
  exists f',
    enrich_film_with_tmdb Sample.tmdb Sample.feed_film "key" = Ok f'
    /\ tmdb_id f' = Some 329865
    /\ poster_url f' = Some "https://image.tmdb.org/t/p/w500/poster.jpg".
Proof.
  destruct (enrich_lookup_success Sample.tmdb Sample.feed_film "key" 329865
              Sample.arrival eq_refl ltac:(discriminate) eq_refl eq_refl)
    as (f' & He & Hid & Hp & _).
  exists f'. split; [exact He |]. split; [exact Hid |].
  apply (Hp "/poster.jpg"); [reflexivity | discriminate].
Defined.

(** ** The diary row: what is skipped and what is built *)

(** X4. A diary row is skipped, without an error, exactly when it has no
    viewing ID or an empty one, or no poster block, or a poster block whose
    name or slug is empty. *)
Theorem diary_row_skipped_iff (row : PageElement) :
  _parse_diary_row row = Ok None <->
  (Soup.get row "data-viewing-id" = None
   \/ Soup.get row "data-viewing-id" = Some ""
   \/ Soup.select_one row poster_selector = None
   \/ exists poster_div,
        Soup.select_one row poster_selector = Some poster_div
        /\ (Soup.get_default poster_div "data-item-name" "" = ""
            \/ Soup.get_default poster_div "data-item-slug" "" = "")).
Proof.
  unfold _parse_diary_row.
  destruct (Soup.get row "data-viewing-id") as [viewing_id |]; [| tauto].
  destruct (String.eqb_spec viewing_id "") as [-> | Hv]; [tauto |].
  destruct (Soup.select_one row poster_selector) as [poster_div |]; [| tauto].
  destruct (String.eqb_spec (Soup.get_default poster_div "data-item-name" "") "")
    as [En | Hn]; simpl.
  - split; [| reflexivity]. intros _. right. right. right. eauto.
  - destruct (String.eqb_spec (Soup.get_default poster_div "data-item-slug" "") "")
      as [Es | Hs]; simpl.
    + split; [| reflexivity]. intros _. right. right. right. eauto.
    + split.
      * destruct (_extract_rating row); simpl; discriminate.
      * intros [H | [H | [H | (d & Hd & [H | H])]]]; try discriminate;
          try congruence; inversion Hd; subst; contradiction.
Qed.

(** X5. The film of a diary row has the identifier [letterboxd-viewing-]
    followed by the viewing ID of the row and the URL of the slug of its
    poster block, and never a catalog ID, a review or artwork. *)
Theorem diary_film_fields (row : PageElement) (film : Film) :
  _parse_diary_row row = Ok (Some film) ->
  exists viewing_id poster_div,
    Soup.get row "data-viewing-id" = Some viewing_id
    /\ Soup.select_one row poster_selector = Some poster_div
    /\ letterboxd_id film = "letterboxd-viewing-" ++ viewing_id
    /\ letterboxd_url film
       = "https://letterboxd.com/film/"
         ++ Soup.get_default poster_div "data-item-slug" "" ++ "/"
    /\ tmdb_id film = None /\ review film = None
    /\ backdrop_url film = None /\ poster_url film = None.
Proof.
  unfold _parse_diary_row.
  destruct (Soup.get row "data-viewing-id") as [viewing_id |]; [| discriminate].
  destruct (String.eqb viewing_id ""); [discriminate |].
  destruct (Soup.select_one row poster_selector) as [poster_div |]; [| discriminate].
  destruct (String.eqb (Soup.get_default poster_div "data-item-name" "") ""
            || String.eqb (Soup.get_default poster_div "data-item-slug" "") "");
    [discriminate |].
  destruct (_extract_rating row) as [rating |]; simpl; [| discriminate].
  intros H. inversion H; subst; clear H. simpl.
  exists viewing_id, poster_div. repeat split; reflexivity.
Qed.

Lemma diary_film_fields_witness :
  letterboxd_id SampleFeed.home_alone = "letterboxd-viewing-123"
  /\ letterboxd_url SampleFeed.home_alone = "https://letterboxd.com/film/home-alone/".
Proof.
  destruct (diary_film_fields (SampleRow.row ["rating"; "rated-7"] ["col-rewatch"])
              SampleFeed.home_alone eq_refl)
    as (viewing_id & poster_div & Hv & Hp & Hid & Hurl & _).
  inversion Hv; subst viewing_id. inversion Hp; subst poster_div.
  split; assumption.
Defined.

Lemma digit_value_range (c : ascii) :
  Py.is_digit c = true -> 0 <= Py.digit_value c <= 9.
Proof.
  unfold Py.is_digit, Py.digit_value. intros H.
  apply andb_prop in H. destruct H as [Hlo Hhi].
  apply Nat.leb_le in Hlo. apply Nat.leb_le in Hhi. lia.
Qed.

(** X6. The year taken from a title is never negative and never above 9999
    (0 when the title has no year in parentheses at its end). *)
Theorem title_year_range (title : string) : 0 <= title_year title <= 9999.
Proof.
  unfold title_year, year_suffix.
  match goal with
  | |- context [let (_, _) := ?p in _] => destruct p as [nl r1]
  end.
  destruct r1 as [| cl [| d4 [| d3 [| d2 [| d1 [| op before]]]]]]; try lia.
  destruct (Ascii.eqb cl ")" && Ascii.eqb op "(" && all_digits [d1; d2; d3; d4])
    eqn:E; [| lia].
  apply andb_prop in E. destruct E as [_ Hd]. unfold all_digits in Hd. simpl in Hd.
  apply andb_prop in Hd. destruct Hd as [H1 Hd].
  apply andb_prop in Hd. destruct Hd as [H2 Hd].
  apply andb_prop in Hd. destruct Hd as [H3 Hd].
  apply andb_prop in Hd. destruct Hd as [H4 _].
  apply digit_value_range in H1, H2, H3, H4.
  unfold Py.digits_value. cbn [fold_left]. lia.
Qed.

Lemma chars_str (cs : list ascii) : Py.chars (Py.str cs) = cs.
Proof. apply list_ascii_of_string_of_list_ascii. Qed.

Lemma lstrip_rev_spaces (ws rest : list ascii) :
  forallb Py.is_space ws = true -> Py.lstrip_rev (ws ++ rest) = Py.lstrip_rev rest.
Proof.
  induction ws as [| c ws IH]; simpl; [reflexivity |].
  intros H. apply andb_prop in H. destruct H as [Hc Hw]. rewrite Hc. auto.
Qed.

(** X7. A name that ends with four ASCII digits in parentheses splits into
    the year of the digits and the title before them, the white space
    between the two being dropped: for a title [base] that [rstrip] leaves
    as it is (no white space of Unicode at its end), [base], ASCII white
    space and [(dddd)] give the title [base] and the year [dddd]. *)
Theorem title_year_split (base ws : list ascii) (d1 d2 d3 d4 : ascii) :
  forallb Py.is_space ws = true ->
  all_digits [d1; d2; d3; d4] = true ->
  Py.rstrip base = base ->
  let name := Py.str (base ++ ws ++ ["("%char; d1; d2; d3; d4; ")"%char]) in
  clean_title name = Py.str base
  /\ title_year name = Py.digits_value [d1; d2; d3; d4].
Proof.
  intros Hws Hd Hbase name. subst name.
  assert (Hs : year_suffix (Py.str (base ++ ws ++ ["("%char; d1; d2; d3; d4; ")"%char]))
               = Some ([d1; d2; d3; d4], (rev ws ++ rev base)%list, [])).
  { unfold year_suffix. rewrite chars_str.
    rewrite !rev_app_distr. simpl rev. simpl app.
    replace (ascii_of_nat 10) with (Ascii false true false true false false false false)
      by reflexivity.
    cbn [Ascii.eqb Bool.eqb andb]. rewrite Hd. reflexivity. }
  unfold clean_title, title_year. rewrite Hs. split; [| reflexivity].
  simpl app. rewrite <- forallb_rev in Hws.
  rewrite (lstrip_rev_spaces _ _ Hws).
  fold (Py.rstrip base). rewrite Hbase. reflexivity.
Qed.

Lemma title_year_split_witness :
  clean_title "Home Alone  (1990)" = "Home Alone"
  /\ title_year "Home Alone  (1990)" = 1990.
Proof.
  exact (title_year_split (Py.chars "Home Alone") (Py.chars "  ")
           "1" "9" "9" "0" eq_refl eq_refl eq_refl).
Defined.

(** X8. A watched date is a date of the calendar: its year is between 1 and
    9999, its month between 1 and 12 and its day within the month; a link
    whose numbers are no such date gives no date. *)
Theorem watched_date_is_valid (row : PageElement) (d : Datetime.date) :
  _extract_watched_date row = Some d ->
  1 <= Datetime.year d <= 9999
  /\ 1 <= Datetime.month d <= 12
  /\ 1 <= Datetime.day d <= Datetime.days_in_month (Datetime.year d) (Datetime.month d).
Proof.
  unfold _extract_watched_date.
  destruct (Soup.select_one row daydate_selector) as [day_link |]; [| discriminate].
  destruct (date_search (Py.chars (Soup.get_default day_link "href" "")))
    as [[[y m] dd] |]; [| discriminate].
  unfold Datetime.make.
  destruct (_ && _) eqn:E; [| discriminate].
  intros H. inversion H; subst; clear H. simpl.
  repeat (apply andb_prop in E; destruct E as [E ?]).
  repeat match goal with
         | H : (_ <=? _) = true |- _ => apply Z.leb_le in H
         end.
  lia.
Qed.

Lemma watched_date_is_valid_witness :
  _extract_watched_date (SampleRow.row ["rating"] ["col-rewatch"])
  = Some (Datetime.Date 2025 12 26)
  /\ 1 <= 26 <= Datetime.days_in_month 2025 12.
Proof.
  split; [reflexivity |].
  exact (proj2 (proj2 (watched_date_is_valid
                         (SampleRow.row ["rating"] ["col-rewatch"])
                         (Datetime.Date 2025 12 26) eq_refl))).
Defined.

(** X9. A rating of a diary row is a whole number of half stars within the
    range of the floats: never an infinity, never a NaN.  Nothing bounds it
    to the five stars, and a token such as [rated--3] gives -1.5. *)
Theorem diary_rating_half_stars (row : PageElement) (r : Py.Float) :
  _extract_rating row = Ok (Some r) ->
  exists n, r = Py.Finite (Qmake n 2) /\ Z.abs n < float_bound.
Proof.
  unfold _extract_rating.
  destruct (Soup.select_one row rating_selector) as [span |]; [| discriminate].
  destruct (Soup.get_class span) as [classes |]; [| discriminate].
  induction classes as [| cls rest IH]; simpl; [discriminate |].
  destruct (Py.startswith cls "rated-"); [| exact IH].
  destruct (Py.int (Py.remove cls "rated-")) as [n |]; [| exact IH].
  unfold Py.truediv_2. fold float_bound.
  destruct (Z.ltb_spec (Z.abs n) float_bound) as [Hlt | _]; simpl; [| discriminate].
  intros H. inversion H; subst. exists n. auto.
Qed.

Lemma diary_rating_half_stars_witness :
  _extract_rating (SampleRow.row ["rating"; "rated--3"] ["col-rewatch"])
  = Ok (Some (Py.Finite (Qmake (-3) 2)))
  /\ exists n, Py.Finite (Qmake (-3) 2) = Py.Finite (Qmake n 2) /\ Z.abs n < float_bound.
Proof.
  split; [reflexivity |].
  exact (diary_rating_half_stars
           (SampleRow.row ["rating"; "rated--3"] ["col-rewatch"]) _ eq_refl).
Defined.


(** ** The loop over rows and items *)

Lemma collect_ok {A : Type} (parse : A -> Result (option Film)) (rows : list A) :
  forall films,
    collect parse rows = Ok films ->
    films = row_films parse rows
    /\ (forall row, In row rows -> exists o, parse row = Ok o).
Proof.
  induction rows as [| row rest IH]; simpl; intros films H.
  - inversion H. split; [reflexivity | contradiction].
  - destruct (parse row) as [o | e] eqn:Ep; simpl in H; [| discriminate].
    destruct (collect parse rest) as [fs | e]; simpl in H; [| discriminate].
    destruct (IH fs eq_refl) as [Hfs Hall]. inversion H; subst; clear H.
    split.
    + destruct o; reflexivity.
    + intros r [<- | Hin]; eauto.
Qed.

Lemma collect_raise {A : Type} (parse : A -> Result (option Film)) (rows : list A) :
  forall e,
    collect parse rows = Raise e ->
    exists before row after,
      rows = (before ++ row :: after)%list
      /\ parse row = Raise e
      /\ (forall b, In b before -> exists o, parse b = Ok o).
Proof.
  induction rows as [| row rest IH]; simpl; intros e H; [discriminate |].
  destruct (parse row) as [o | e'] eqn:Ep; simpl in H.
  - destruct (collect parse rest) as [fs | e''] eqn:Ec; simpl in H; [discriminate |].
    inversion H; subst; clear H.
    destruct (IH e eq_refl) as (before & r & after & -> & Hr & Hb).
    exists (row :: before), r, after. split; [reflexivity |]. split; [exact Hr |].
    intros b [<- | Hin]; eauto.
  - inversion H; subst; clear H.
    exists [], row, rest. split; [reflexivity |]. split; [exact Ep |].
    intros b [].
Qed.

Lemma row_films_in {A : Type} (parse : A -> Result (option Film)) (rows : list A)
    (film : Film) :
  In film (row_films parse rows) ->
  exists row, In row rows /\ parse row = Ok (Some film).
Proof.
  unfold row_films. rewrite in_flat_map. intros (row & Hin & Hf).
  exists row. split; [exact Hin |].
  destruct (parse row) as [[f |] | e]; simpl in Hf; try contradiction.
  destruct Hf as [<- | []]. reflexivity.
Qed.

Lemma row_films_length {A : Type} (parse : A -> Result (option Film)) (rows : list A) :
  (List.length (row_films parse rows) <= List.length rows)%nat.
Proof.
  induction rows as [| row rest IH]; simpl; [lia |].
  rewrite length_app. destruct (parse row) as [[f |] | e]; simpl; lia.
Qed.

(** ** The diary page *)

Lemma parse_diary_page_ok
    (BeautifulSoup : string -> string -> PageElement)
    (client : AsyncClient) (diary_url : string) (page : Z)
    (films : list Film) (has_more : bool) :
  parse_diary_page BeautifulSoup client diary_url page = Ok (films, has_more) ->
  collect _parse_diary_row
    (Soup.select
       (BeautifulSoup (content (client (diary_url ++ "/page/" ++ Py.str_of_int page ++ "/") []))
                      "html.parser")
       diary_row_selector)
  = Ok films.
Proof.
  unfold parse_diary_page.
  destruct (status_code (client (diary_url ++ "/page/" ++ Py.str_of_int page ++ "/") [])
            =? 429); [discriminate |].
  destruct (raise_for_status
              (client (diary_url ++ "/page/" ++ Py.str_of_int page ++ "/") []));
    simpl; [| discriminate].
  destruct (collect _parse_diary_row _) as [fs | e]; simpl; [| discriminate].
  intros H. inversion H; subst; reflexivity.
Qed.

(** X10. The films of a diary page are the films of its rows
    [tr.diary-entry-row] that parse to a film, in document order and one at
    most for a row; each of them is the film of a row of the page and has
    neither a catalog ID nor a review. *)
Theorem diary_page_films
    (BeautifulSoup : string -> string -> PageElement)
    (client : AsyncClient) (diary_url : string) (page : Z)
    (films : list Film) (has_more : bool) :
  parse_diary_page BeautifulSoup client diary_url page = Ok (films, has_more) ->
  let rows :=
    Soup.select
      (BeautifulSoup (content (client (diary_url ++ "/page/" ++ Py.str_of_int page ++ "/") []))
                     "html.parser")
      diary_row_selector in
  films = row_films _parse_diary_row rows
  /\ (List.length films <= List.length rows)%nat
  /\ (forall film, In film films ->
        (exists row, In row rows /\ _parse_diary_row row = Ok (Some film))
        /\ tmdb_id film = None /\ review film = None).
Proof.
  intros H rows. apply parse_diary_page_ok in H. fold rows in H.
  apply collect_ok in H. destruct H as [-> _].
  split; [reflexivity |]. split; [apply row_films_length |].
  intros film Hin. apply row_films_in in Hin. destruct Hin as (row & Hin & Hrow).
  split; [eauto |].
  apply parse_diary_row_fields in Hrow. tauto.
Qed.

Lemma diary_page_films_witness :
  parse_diary_page SampleDiary.soup SampleDiary.client
    "https://letterboxd.com/someone/diary" 1
  = Ok ([SampleFeed.home_alone], true)
  /\ (List.length [SampleFeed.home_alone] <= 1)%nat.
Proof.
  split; [reflexivity |].
  exact (proj1 (proj2 (diary_page_films SampleDiary.soup SampleDiary.client
                         "https://letterboxd.com/someone/diary" 1
                         [SampleFeed.home_alone] true eq_refl))).
Defined.

(** X11. A diary page fails in three ways only: with the rate limit when
    the status is 429, with the HTTP status error when the status is another
    one outside 200..299, and, the status being in 200..299, with the
    overflow of a row whose rating is beyond the floats.  A row that is
    malformed in any other way fails nothing. *)
Theorem diary_page_errors
    (BeautifulSoup : string -> string -> PageElement)
    (client : AsyncClient) (diary_url : string) (page : Z) (e : Exception) :
  parse_diary_page BeautifulSoup client diary_url page = Raise e ->
  let response := client (diary_url ++ "/page/" ++ Py.str_of_int page ++ "/") [] in
  (status_code response = 429 /\ e = RateLimitError None)
  \/ (status_code response <> 429
      /\ ~ (200 <= status_code response < 300)
      /\ e = HTTPStatusError (status_code response))
  \/ (200 <= status_code response < 300
      /\ e = OverflowError
      /\ exists row,
           In row (Soup.select (BeautifulSoup (content response) "html.parser")
                               diary_row_selector)
           /\ _parse_diary_row row = Raise OverflowError).
Proof.
  intros H response. unfold parse_diary_page in H. cbv zeta in H.
  fold response in H.
  destruct (Z.eqb_spec (status_code response) 429) as [E4 | N4].
  - left. inversion H. auto.
  - right. unfold raise_for_status in H.
    destruct (Z.leb_spec 200 (status_code response)) as [Hlo | Hlo];
      [destruct (Z.ltb_spec (status_code response) 300) as [Hhi | Hhi] |];
      simpl in H.
    + right.
      destruct (collect _parse_diary_row
                  (Soup.select (BeautifulSoup (content response) "html.parser")
                               diary_row_selector)) as [fs | e'] eqn:Ec;
        simpl in H; [discriminate |].
      inversion H; subst; clear H.
      apply collect_raise in Ec. destruct Ec as (before & row & after & Hrows & Hrow & _).
      pose proof (parse_diary_row_raises row e Hrow) as ->.
      split; [lia |]. split; [reflexivity |].
      exists row. split; [| exact Hrow]. rewrite Hrows. apply in_elt.
    + left. inversion H. repeat split; auto. lia.
    + left. inversion H. repeat split; auto. lia.
Qed.

Lemma diary_page_errors_witness :
  parse_diary_page SampleDiary.soup (Sample.status_only 503 [])
    "https://letterboxd.com/someone/diary" 1
  = Raise (HTTPStatusError 503)
  /\ ((503 = 429 /\ HTTPStatusError 503 = RateLimitError None)
      \/ (503 <> 429 /\ ~ (200 <= 503 < 300)
          /\ HTTPStatusError 503 = HTTPStatusError 503)
      \/ (200 <= 503 < 300
          /\ HTTPStatusError 503 = OverflowError
          /\ exists row,
               In row (Soup.select (SampleDiary.soup "" "html.parser") diary_row_selector)
               /\ _parse_diary_row row = Raise OverflowError)).
Proof.
  split; [reflexivity |].
  exact (diary_page_errors SampleDiary.soup (Sample.status_only 503 [])
           "https://letterboxd.com/someone/diary" 1 (HTTPStatusError 503) eq_refl).
Defined.

(** ** The pagination driver *)

Lemma parse_all_from_pages
    (BeautifulSoup : string -> string -> PageElement)
    (client : AsyncClient) (diary_url : string) (on_page : bool)
    (last : Result (list Film * bool)) (pages : list (list Film)) :
  match last with Ok (films, _) => films = [] | Raise _ => True end ->
  forall (extra : nat) (start : Z) (all_films : list Film),
    serves BeautifulSoup client diary_url start pages last ->
    parse_all_from BeautifulSoup (S (Datatypes.length pages) + extra)%nat client diary_url
                   on_page start all_films
    = (crawl_events on_page start (Datatypes.length pages),
       Some (crawl_outcome last (all_films ++ List.concat pages)%list)).
Proof.
  intros Hlast. induction pages as [| films rest IH]; intros extra start all_films Hs.
  - simpl in Hs. cbn [Datatypes.length Nat.add parse_all_from]. rewrite Hs.
    cbn [List.concat crawl_events]. rewrite app_nil_r.
    destruct last as [[films hm] | e]; [| reflexivity].
    subst films. reflexivity.
  - destruct Hs as (Hne & [hm Hpage] & Hrest).
    cbn [Datatypes.length Nat.add].
    rewrite (parse_all_goes_on BeautifulSoup _ client diary_url on_page start
               all_films films hm Hpage Hne).
    change (S (Datatypes.length rest + extra)) with (S (Datatypes.length rest) + extra)%nat.
    rewrite (IH extra (start + 1) (all_films ++ films)%list Hrest).
    cbn [List.concat crawl_events]. unfold page_events.
    rewrite <- (app_assoc all_films films (List.concat rest)). reflexivity.
Qed.

(** X12. When the diary has [n] pages with films and the next page is
    empty, the driver returns the films of the [n] pages in order.  It calls
    the callback before each request, requests the pages 1 to [n + 1] and no
    other, and pauses two seconds after each of the [n] pages with films,
    the last one too. *)
Theorem parse_all_diary_pages_until_empty
    (BeautifulSoup : string -> string -> PageElement)
    (client : AsyncClient) (diary_url : string) (on_page : bool)
    (pages : list (list Film)) (has_more : bool) (extra : nat) :
  serves BeautifulSoup client diary_url 1 pages (Ok ([], has_more)) ->
  parse_all_diary_pages BeautifulSoup (S (Datatypes.length pages) + extra)%nat client
                        diary_url on_page
  = (crawl_events on_page 1 (Datatypes.length pages), Some (Ok (List.concat pages))).
Proof.
  intros Hs. unfold parse_all_diary_pages.
  rewrite (parse_all_from_pages BeautifulSoup client diary_url on_page
             (Ok ([], has_more)) pages eq_refl extra 1 [] Hs).
  reflexivity.
Qed.

Lemma parse_all_diary_pages_until_empty_witness :
  parse_all_diary_pages SampleDiary.soup 5 SampleDiary.client
    "https://letterboxd.com/someone/diary" true
  = ([OnPage 1; Fetch 1; Sleep 2; OnPage 2; Fetch 2],
     Some (Ok [SampleFeed.home_alone])).
Proof.
  apply (parse_all_diary_pages_until_empty SampleDiary.soup SampleDiary.client
           "https://letterboxd.com/someone/diary" true
           [[SampleFeed.home_alone]] false 3).
  split; [discriminate |]. split; [exists true; reflexivity | reflexivity].
Defined.

(** X13. When a page fails after [n] pages with films, the driver fails
    with the error of that page: the films of the [n] pages are not
    returned. *)
Theorem parse_all_diary_pages_failure
    (BeautifulSoup : string -> string -> PageElement)
    (client : AsyncClient) (diary_url : string) (on_page : bool)
    (pages : list (list Film)) (e : Exception) (extra : nat) :
  serves BeautifulSoup client diary_url 1 pages (Raise e) ->
  parse_all_diary_pages BeautifulSoup (S (Datatypes.length pages) + extra)%nat client
                        diary_url on_page
  = (crawl_events on_page 1 (Datatypes.length pages), Some (Raise e)).
Proof.
  intros Hs. unfold parse_all_diary_pages.
  rewrite (parse_all_from_pages BeautifulSoup client diary_url on_page
             (Raise e) pages I extra 1 [] Hs).
  reflexivity.
Qed.

Lemma parse_all_diary_pages_failure_witness :
  parse_all_diary_pages SampleDiary.soup 2 SampleDiary.limited
    "https://letterboxd.com/someone/diary" false
  = ([Fetch 1; Sleep 2; Fetch 2], Some (Raise (RateLimitError None))).
Proof.
  apply (parse_all_diary_pages_failure SampleDiary.soup SampleDiary.limited
           "https://letterboxd.com/someone/diary" false
           [[SampleFeed.home_alone]] (RateLimitError None) 0).
  split; [discriminate |]. split; [exists true; reflexivity | reflexivity].
Defined.


(** ** The feed item *)

Lemma optional_field_cases {A : Type} (convert : string -> option A)
    (elem : option Element) :
  (rejected convert elem /\ optional_field convert elem = Raise ValueError)
  \/ (~ rejected convert elem
      /\ optional_field convert elem = Ok (converted convert elem)).
Proof.
  unfold optional_field, converted, rejected, Py.truthy_str.
  destruct (child_text elem) as [t |].
  - destruct (String.eqb_spec t "") as [-> | Hne]; simpl.
    + right. split; [| reflexivity].
      intros (t & Ht & Hne & _). inversion Ht; subst. contradiction.
    + destruct (convert t) as [v |] eqn:Ec.
      * right. split; [| reflexivity].
        intros (t' & Ht & _ & Hc). inversion Ht; subst. congruence.
      * left. split; [| reflexivity]. exists t. auto.
  - right. split; [| reflexivity]. intros (t & Ht & _). discriminate.
Qed.

(** A conversion that is not rejected gives nothing exactly for a child
    that is missing or has no text or an empty one. *)
Lemma converted_absent {A : Type} (convert : string -> option A)
    (elem : option Element) :
  ~ rejected convert elem ->
  (converted convert elem = None <->
   (child_text elem = None \/ child_text elem = Some "")).
Proof.
  unfold rejected, converted. intros Hn.
  destruct (child_text elem) as [t |]; [| tauto].
  destruct (String.eqb_spec t "") as [-> | Hne]; [tauto |].
  split.
  - intros Hc. exfalso. apply Hn. exists t. auto.
  - intros [H | H]; [discriminate | congruence].
Qed.

Lemma parse_rss_item_skipped
    (BeautifulSoup : string -> string -> PageElement)
    (fromisoformat : string -> option Datetime.date) (item : Element) :
  child_text (ET.find item "guid") = None
  \/ child_text (ET.find_ns item NAMESPACES "letterboxd" "filmTitle") = None
  \/ child_text (ET.find_ns item NAMESPACES "letterboxd" "filmYear") = None ->
  _parse_rss_item BeautifulSoup fromisoformat item = Ok None.
Proof.
  unfold _parse_rss_item.
  destruct (child_text (ET.find item "guid")); [| reflexivity].
  destruct (child_text (ET.find_ns item NAMESPACES "letterboxd" "filmTitle"));
    [| reflexivity].
  destruct (child_text (ET.find_ns item NAMESPACES "letterboxd" "filmYear"));
    [| reflexivity].
  intros [H | [H | H]]; discriminate.
Qed.

(** The outcome of an item that has its three required children. *)
Lemma parse_rss_item_complete
    (BeautifulSoup : string -> string -> PageElement)
    (fromisoformat : string -> option Datetime.date) (item : Element)
    (guid title year_text : string) :
  child_text (ET.find item "guid") = Some guid ->
  child_text (ET.find_ns item NAMESPACES "letterboxd" "filmTitle") = Some title ->
  child_text (ET.find_ns item NAMESPACES "letterboxd" "filmYear") = Some year_text ->
  let rating_elem := ET.find_ns item NAMESPACES "letterboxd" "memberRating" in
  let watched_elem := ET.find_ns item NAMESPACES "letterboxd" "watchedDate" in
  let tmdb_elem := ET.find_ns item NAMESPACES "tmdb" "movieId" in
  ((Py.int year_text = None \/ rejected Py.float rating_elem
    \/ rejected fromisoformat watched_elem \/ rejected Py.int tmdb_elem)
   /\ _parse_rss_item BeautifulSoup fromisoformat item = Raise ValueError)
  \/ (exists y,
         Py.int year_text = Some y
         /\ ~ rejected Py.float rating_elem
         /\ ~ rejected fromisoformat watched_elem
         /\ ~ rejected Py.int tmdb_elem
         /\ _parse_rss_item BeautifulSoup fromisoformat item
            = Ok (Some (mkFilm guid (converted Py.int tmdb_elem) title y
                          (match child_text (ET.find item "link") with
                           | Some t => t
                           | None => ""
                           end)
                          (converted Py.float rating_elem)
                          (converted fromisoformat watched_elem)
                          (match child_text
                                   (ET.find_ns item NAMESPACES "letterboxd" "rewatch") with
                           | Some t => String.eqb t "Yes"
                           | None => false
                           end)
                          (_extract_review_from_description BeautifulSoup item)
                          None None))).
Proof.
  intros Hg Ht Hy rating_elem watched_elem tmdb_elem.
  unfold _parse_rss_item. rewrite Hg, Ht, Hy.
  fold rating_elem watched_elem tmdb_elem.
  destruct (Py.int year_text) as [y |]; simpl; [| left; auto].
  destruct (optional_field_cases Py.float rating_elem) as [[Hr ->] | [Hr ->]];
    simpl; [left; auto |].
  destruct (optional_field_cases fromisoformat watched_elem) as [[Hw ->] | [Hw ->]];
    simpl; [left; auto |].
  destruct (optional_field_cases Py.int tmdb_elem) as [[Hi ->] | [Hi ->]];
    simpl; [left; auto |].
  right. exists y. repeat split; try assumption.
  do 3 f_equal.
  - unfold Py.truthy_str.
    destruct (child_text (ET.find item "link")) as [t |]; [| reflexivity].
    destruct (String.eqb_spec t "") as [-> | _]; reflexivity.
  - unfold child_text.
    destruct (ET.find_ns item NAMESPACES "letterboxd" "rewatch"); reflexivity.
Qed.

(** X14. A feed item is skipped, without an error, exactly when it lacks a
    guid, a film title or a film year (the element or its text). *)
Theorem rss_item_skipped_iff
    (BeautifulSoup : string -> string -> PageElement)
    (fromisoformat : string -> option Datetime.date) (item : Element) :
  _parse_rss_item BeautifulSoup fromisoformat item = Ok None <->
  (child_text (ET.find item "guid") = None
   \/ child_text (ET.find_ns item NAMESPACES "letterboxd" "filmTitle") = None
   \/ child_text (ET.find_ns item NAMESPACES "letterboxd" "filmYear") = None).
Proof.
  split; [| apply parse_rss_item_skipped].
  intros H.
  destruct (child_text (ET.find item "guid")) as [g |] eqn:Hg; [| auto].
  destruct (child_text (ET.find_ns item NAMESPACES "letterboxd" "filmTitle"))
    as [t |] eqn:Ht; [| auto].
  destruct (child_text (ET.find_ns item NAMESPACES "letterboxd" "filmYear"))
    as [yt |] eqn:Hy; [| auto].
  destruct (parse_rss_item_complete BeautifulSoup fromisoformat item g t yt Hg Ht Hy)
    as [[_ Hr] | (y & _ & _ & _ & _ & Hr)]; rewrite Hr in H; discriminate.
Qed.

(** X15. A feed item with a guid, a title and a year, whose year, rating
    and catalog ID are ASCII texts, raises [ValueError], and nothing else,
    exactly when [int] rejects the text of its year, or [float] the
    non-empty text of its rating, or [date.fromisoformat] the non-empty text
    of its watched date, or [int] the non-empty text of its catalog ID. *)
Theorem rss_item_error_iff
    (BeautifulSoup : string -> string -> PageElement)
    (fromisoformat : string -> option Datetime.date) (item : Element)
    (guid title year_text : string) (e : Exception) :
  child_text (ET.find item "guid") = Some guid ->
  child_text (ET.find_ns item NAMESPACES "letterboxd" "filmTitle") = Some title ->
  child_text (ET.find_ns item NAMESPACES "letterboxd" "filmYear") = Some year_text ->
  Py.is_ascii year_text = true ->
  ascii_child (ET.find_ns item NAMESPACES "letterboxd" "memberRating") ->
  ascii_child (ET.find_ns item NAMESPACES "tmdb" "movieId") ->
  (_parse_rss_item BeautifulSoup fromisoformat item = Raise e <->
   (e = ValueError
    /\ (Py.int year_text = None
        \/ rejected Py.float (ET.find_ns item NAMESPACES "letterboxd" "memberRating")
        \/ rejected fromisoformat (ET.find_ns item NAMESPACES "letterboxd" "watchedDate")
        \/ rejected Py.int (ET.find_ns item NAMESPACES "tmdb" "movieId")))).
Proof.
  intros Hg Ht Hy _ _ _.
  destruct (parse_rss_item_complete BeautifulSoup fromisoformat item guid title
              year_text Hg Ht Hy)
    as [[Hbad Hr] | (y & Hint & Hnr & Hnw & Hni & Hr)]; rewrite Hr; split.
  - intros H. inversion H. auto.
  - intros [-> _]. reflexivity.
  - discriminate.
  - intros [_ [H | [H | [H | H]]]]; [congruence | | |]; contradiction.
Qed.

Lemma rss_item_error_iff_witness :
  _parse_rss_item SampleItems.no_soup SampleItems.iso_date
    (SampleFeed.item "4.5" "26/12/2025")
  = Raise ValueError.
Proof.
  apply (rss_item_error_iff SampleItems.no_soup SampleItems.iso_date
           (SampleFeed.item "4.5" "26/12/2025")
           "letterboxd-review-42" "Arrival" "2016" ValueError
           eq_refl eq_refl eq_refl eq_refl).
  - intros t Ht. inversion Ht; subst. reflexivity.
  - intros t Ht. discriminate.
  - split; [reflexivity |]. right. right. left.
    exists "26/12/2025". split; [reflexivity |]. split; [discriminate | reflexivity].
Defined.

(** X16. The film of a feed item has the guid as identifier, the title of
    the item, the text of its link as URL (the empty string without one),
    the review of its description and no artwork; its rating and its catalog
    ID are absent exactly when their element is missing or has no text or an
    empty one, its watched date is what [date.fromisoformat] makes of the
    text, absent likewise, and it is a rewatch exactly when the text of the
    rewatch element is [Yes]. *)
Theorem rss_film_fields
    (BeautifulSoup : string -> string -> PageElement)
    (fromisoformat : string -> option Datetime.date) (item : Element) (film : Film) :
  _parse_rss_item BeautifulSoup fromisoformat item = Ok (Some film) ->
  child_text (ET.find item "guid") = Some (letterboxd_id film)
  /\ child_text (ET.find_ns item NAMESPACES "letterboxd" "filmTitle") = Some (title film)
  /\ letterboxd_url film
     = match child_text (ET.find item "link") with Some t => t | None => "" end
  /\ (rating film = None <->
      (child_text (ET.find_ns item NAMESPACES "letterboxd" "memberRating") = None
       \/ child_text (ET.find_ns item NAMESPACES "letterboxd" "memberRating") = Some ""))
  /\ (tmdb_id film = None <->
      (child_text (ET.find_ns item NAMESPACES "tmdb" "movieId") = None
       \/ child_text (ET.find_ns item NAMESPACES "tmdb" "movieId") = Some ""))
  /\ watched_date film
     = converted fromisoformat (ET.find_ns item NAMESPACES "letterboxd" "watchedDate")
  /\ (rewatch film = true <->
      child_text (ET.find_ns item NAMESPACES "letterboxd" "rewatch") = Some "Yes")
  /\ review film = _extract_review_from_description BeautifulSoup item
  /\ backdrop_url film = None /\ poster_url film = None.
Proof.
  intros H.
  destruct (child_text (ET.find item "guid")) as [g |] eqn:Hg;
    [| rewrite parse_rss_item_skipped in H by auto; discriminate].
  destruct (child_text (ET.find_ns item NAMESPACES "letterboxd" "filmTitle"))
    as [t |] eqn:Ht;
    [| rewrite parse_rss_item_skipped in H by auto; discriminate].
  destruct (child_text (ET.find_ns item NAMESPACES "letterboxd" "filmYear"))
    as [yt |] eqn:Hy;
    [| rewrite parse_rss_item_skipped in H by auto; discriminate].
  destruct (parse_rss_item_complete BeautifulSoup fromisoformat item g t yt Hg Ht Hy)
    as [[_ Hr] | (y & Hint & Hnr & _ & Hni & Hr)]; rewrite Hr in H; [discriminate |].
  inversion H; subst; clear H. simpl.
  split; [reflexivity |]. split; [reflexivity |]. split; [reflexivity |].
  split; [apply converted_absent; exact Hnr |].
  split; [apply converted_absent; exact Hni |].
  split; [reflexivity |]. split; [| repeat split; reflexivity].
  destruct (child_text (ET.find_ns item NAMESPACES "letterboxd" "rewatch")) as [r |].
  - split.
    + intros Hyes. apply String.eqb_eq in Hyes. congruence.
    + intros Hr'. inversion Hr'. reflexivity.
  - split; discriminate.
Qed.

Lemma rss_film_fields_witness :
  _parse_rss_item SampleItems.no_soup SampleItems.iso_date SampleItems.bare
  = Ok (Some SampleItems.bare_film)
  /\ rating SampleItems.bare_film = None
  /\ letterboxd_url SampleItems.bare_film = "".
Proof.
  split; [reflexivity |].
  destruct (rss_film_fields SampleItems.no_soup SampleItems.iso_date SampleItems.bare
              SampleItems.bare_film eq_refl)
    as (_ & _ & Hurl & Hr & _).
  split; [apply Hr; left; reflexivity | exact Hurl].
Defined.

(** ** The feed *)

Lemma parse_rss_item_raises
    (BeautifulSoup : string -> string -> PageElement)
    (fromisoformat : string -> option Datetime.date) (item : Element) (e : Exception) :
  _parse_rss_item BeautifulSoup fromisoformat item = Raise e -> e = ValueError.
Proof.
  intros H.
  destruct (child_text (ET.find item "guid")) as [g |] eqn:Hg;
    [| rewrite parse_rss_item_skipped in H by auto; discriminate].
  destruct (child_text (ET.find_ns item NAMESPACES "letterboxd" "filmTitle"))
    as [t |] eqn:Ht;
    [| rewrite parse_rss_item_skipped in H by auto; discriminate].
  destruct (child_text (ET.find_ns item NAMESPACES "letterboxd" "filmYear"))
    as [yt |] eqn:Hy;
    [| rewrite parse_rss_item_skipped in H by auto; discriminate].
  destruct (parse_rss_item_complete BeautifulSoup fromisoformat item g t yt Hg Ht Hy)
    as [[_ Hr] | (y & _ & _ & _ & _ & Hr)]; rewrite Hr in H;
    [inversion H; reflexivity | discriminate].
Qed.

(** X17. A feed is returned only for an answer with a status in 200..299
    whose content parses as XML, and its films are the films of the [item]
    elements below the root that parse to a film, in document order, one at
    most for an item. *)
Theorem rss_feed_films
    (BeautifulSoup : string -> string -> PageElement)
    (fromstring : string -> string + Element)
    (fromisoformat : string -> option Datetime.date)
    (client : AsyncClient) (rss_url : string) (films : list Film) :
  parse_rss_feed BeautifulSoup fromstring fromisoformat client rss_url = Ok films ->
  200 <= status_code (client rss_url []) < 300
  /\ exists root,
       fromstring (content (client rss_url [])) = inr root
       /\ films = row_films (_parse_rss_item BeautifulSoup fromisoformat)
                            (ET.findall_descendants root "item")
       /\ (Datatypes.length films
           <= Datatypes.length (ET.findall_descendants root "item"))%nat.
Proof.
  unfold parse_rss_feed.
  destruct (Z.eqb_spec (status_code (client rss_url [])) 429) as [E4 | N4].
  - destruct (headers_get (headers (client rss_url [])) "Retry-After") as [v |];
      [destruct (Py.int v) |]; discriminate.
  - unfold raise_for_status.
    destruct (Z.leb_spec 200 (status_code (client rss_url []))) as [Hlo | Hlo];
      [destruct (Z.ltb_spec (status_code (client rss_url [])) 300) as [Hhi | Hhi] |];
      simpl; try discriminate.
    destruct (fromstring (content (client rss_url []))) as [msg | root];
      simpl; [discriminate |].
    intros H. apply collect_ok in H. destruct H as [-> _].
    split; [lia |]. exists root. split; [reflexivity |]. split; [reflexivity |].
    apply row_films_length.
Qed.

Lemma rss_feed_films_witness :
  parse_rss_feed SampleItems.no_soup
    (fun _ => inr (SampleFeed.feed [SampleItems.yearless; SampleItems.bare]))
    SampleItems.iso_date (Sample.status_only 200 [])
    "https://letterboxd.com/someone/rss/"
  = Ok [SampleItems.bare_film]
  /\ 200 <= 200 < 300.
Proof.
  split; [reflexivity |].
  exact (proj1 (rss_feed_films SampleItems.no_soup
                  (fun _ => inr (SampleFeed.feed [SampleItems.yearless; SampleItems.bare]))
                  SampleItems.iso_date (Sample.status_only 200 [])
                  "https://letterboxd.com/someone/rss/" [SampleItems.bare_film] eq_refl)).
Defined.

(** X18. A feed fails in four ways only.  With the status 429: the rate
    limit carrying the integer of [Retry-After] (of its values joined by
    commas when the header is repeated), or 60 without the header, or
    [ValueError] when [int] rejects the header, an ASCII text.  With another
    status outside 200..299: the HTTP status error.  With a content that is
    no XML: [ParseError], its message the parser's after
    [Failed to parse RSS XML: ].  With an item that raises: [ValueError]. *)
Theorem rss_feed_errors
    (BeautifulSoup : string -> string -> PageElement)
    (fromstring : string -> string + Element)
    (fromisoformat : string -> option Datetime.date)
    (client : AsyncClient) (rss_url : string) (e : Exception) :
  parse_rss_feed BeautifulSoup fromstring fromisoformat client rss_url = Raise e ->
  (forall v, headers_get (headers (client rss_url [])) "Retry-After" = Some v ->
             Py.is_ascii v = true) ->
  let response := client rss_url [] in
  (status_code response = 429 /\ e = feed_429_error (headers response))
  \/ (status_code response <> 429
      /\ ~ (200 <= status_code response < 300)
      /\ e = HTTPStatusError (status_code response))
  \/ (200 <= status_code response < 300
      /\ exists message,
           fromstring (content response) = inl message
           /\ e = ParseError ("Failed to parse RSS XML: " ++ message))
  \/ (200 <= status_code response < 300
      /\ e = ValueError
      /\ exists root item,
           fromstring (content response) = inr root
           /\ In item (ET.findall_descendants root "item")
           /\ _parse_rss_item BeautifulSoup fromisoformat item = Raise ValueError).
Proof.
  intros H _ response. unfold parse_rss_feed in H. cbv zeta in H. fold response in H.
  destruct (Z.eqb_spec (status_code response) 429) as [E4 | N4].
  - left. split; [exact E4 |]. unfold feed_429_error.
    destruct (headers_get (headers response) "Retry-After") as [v |];
      [destruct (Py.int v) |]; simpl in H; inversion H; reflexivity.
  - right. unfold raise_for_status in H.
    destruct (Z.leb_spec 200 (status_code response)) as [Hlo | Hlo];
      [destruct (Z.ltb_spec (status_code response) 300) as [Hhi | Hhi] |];
      simpl in H.
    + right.
      destruct (fromstring (content response)) as [message | root] eqn:Ef; simpl in H.
      * left. split; [lia |]. exists message. inversion H. auto.
      * right. apply collect_raise in H.
        destruct H as (before & item & after & Hitems & Hitem & _).
        pose proof (parse_rss_item_raises _ _ _ _ Hitem) as ->.
        split; [lia |]. split; [reflexivity |].
        exists root, item. split; [reflexivity |]. split; [| exact Hitem].
        rewrite Hitems. apply in_elt.
    + left. inversion H. repeat split; auto. lia.
    + left. inversion H. repeat split; auto. lia.
Qed.

Lemma rss_feed_errors_witness :
  parse_rss_feed SampleItems.no_soup (fun _ => inl "")
    SampleItems.iso_date
    (Sample.status_only 429 [("retry-after", "120"); ("Retry-After", "30")])
    "https://letterboxd.com/someone/rss/"
  = Raise ValueError
  /\ ValueError = feed_429_error [("retry-after", "120"); ("Retry-After", "30")].
Proof.
  split; [reflexivity |].
  destruct (rss_feed_errors SampleItems.no_soup (fun _ => inl "")
              SampleItems.iso_date
              (Sample.status_only 429 [("retry-after", "120"); ("Retry-After", "30")])
              "https://letterboxd.com/someone/rss/" ValueError eq_refl)
    as [[_ H] | [[H _] | [[H _] | [H _]]]].
  - intros v Hv. inversion Hv; subst. reflexivity.
  - exact H.
  - exfalso. apply H. reflexivity.
  - exfalso. simpl in H. lia.
  - exfalso. simpl in H. lia.
Defined.

(** ** From the diary to the movie database *)

(** X19. A film of the diary is always enriched by a search for its title,
    never by a lookup: the one request carries the key and the title, and the
    year as well exactly when the year of the film is not 0, the year of a
    name without one. *)
Theorem diary_film_is_searched (row : PageElement) (film : Film)
    (client : AsyncClient) (api_key : string) :
  _parse_diary_row row = Ok (Some film) ->
  enrich_response client film api_key
  = client "https://api.themoviedb.org/3/search/movie"
           ([("api_key", api_key); ("query", title film)]
            ++ (if year film =? 0 then []
                else [("year", Py.str_of_int (year film))]))%list.
Proof.
  intros H. apply parse_diary_row_fields in H.
  destruct H as (_ & _ & _ & Hid & _).
  unfold enrich_response. rewrite Hid. simpl Py.truthy_int. cbv iota.
  unfold search_params. destruct (year film =? 0); reflexivity.
Qed.

Lemma diary_film_is_searched_witness :
  enrich_response Sample.tmdb SampleFeed.home_alone "key"
  = Sample.tmdb "https://api.themoviedb.org/3/search/movie"
                [("api_key", "key"); ("query", "Home Alone"); ("year", "1990")].
Proof.
  exact (diary_film_is_searched (SampleRow.row ["rating"; "rated-7"] ["col-rewatch"])
           SampleFeed.home_alone Sample.tmdb "key" eq_refl).
Defined.

(** ** The date of a diary link *)

Lemma prefix_cons (a b : ascii) (p s : string) :
  String.prefix (String a p) (String b s)
  = if ascii_dec a b then String.prefix p s else false.
Proof. reflexivity. Qed.

Lemma prefix_empty (s : string) : String.prefix "" s = true.
Proof. destruct s; reflexivity. Qed.

Lemma prefix_nil (a : ascii) (p : string) : String.prefix (String a p) "" = false.
Proof. reflexivity. Qed.

(** A match begins with [/for/] and a digit. *)
Lemma date_at_head (cs : list ascii) (g : list ascii * list ascii * list ascii) :
  date_at cs = Some g ->
  exists y1 r,
    cs = ("/" :: "f" :: "o" :: "r" :: "/" :: y1 :: r)%char%list
    /\ Py.is_digit y1 = true.
Proof.
  unfold date_at, drop_prefix.
  destruct cs as [| c0 [| c1 [| c2 [| c3 [| c4 r]]]]];
    cbn [Py.str string_of_list_ascii];
    rewrite ?prefix_cons, ?prefix_nil, ?prefix_empty;
    repeat match goal with
           | |- context [ascii_dec ?a ?b] => destruct (ascii_dec a b) as [<- | ?]
           end;
    try discriminate.
  cbn [String.length skipn].
  destruct r as [| y1 [| y2 [| y3 [| y4 [| sl r]]]]]; try discriminate.
  destruct (all_digits [y1; y2; y3; y4] && Ascii.eqb sl "/") eqn:E; [| discriminate].
  intros _. exists y1, (y2 :: y3 :: y4 :: sl :: r). split; [reflexivity |].
  apply andb_prop in E. destruct E as [E _]. simpl in E.
  apply andb_prop in E. tauto.
Qed.

Lemma contains_cons (c : ascii) (s sub : string) :
  Py.contains (String c s) sub = false ->
  String.prefix sub (String c s) = false /\ Py.contains s sub = false.
Proof.
  cbn [Py.contains]. intros H. apply orb_false_elim in H. exact H.
Qed.

(** Before the first [/for/] of a link nothing matches. *)
Lemma date_search_skips (pre : list ascii) :
  forall y1 rest,
    Py.contains (Py.str pre) "/for/" = false ->
    Py.is_digit y1 = true ->
    date_search (pre ++ ("/" :: "f" :: "o" :: "r" :: "/" :: y1 :: rest)%char)%list
    = date_search ("/" :: "f" :: "o" :: "r" :: "/" :: y1 :: rest)%char%list.
Proof.
  induction pre as [| c pre IH]; intros y1 rest Hfree Hy; [reflexivity |].
  cbn [Py.str string_of_list_ascii] in Hfree.
  apply contains_cons in Hfree. destruct Hfree as [Hhead Hfree].
  change ((c :: pre) ++ ("/" :: "f" :: "o" :: "r" :: "/" :: y1 :: rest)%char)%list
    with (c :: (pre ++ ("/" :: "f" :: "o" :: "r" :: "/" :: y1 :: rest)%char))%list.
  cbn [date_search].
  destruct (date_at (c :: pre ++ ("/" :: "f" :: "o" :: "r" :: "/" :: y1 :: rest)%char)%list)
    as [g |] eqn:Ed; [| apply IH; assumption].
  exfalso. apply date_at_head in Ed. destruct Ed as (z & r & Heq & Hz).
  destruct pre as [| p1 [| p2 [| p3 [| p4 pre]]]]; cbn [app] in Heq.
  - congruence.
  - congruence.
  - congruence.
  - assert (z = "f"%char) by congruence. subst z. discriminate.
  - assert (c = "/"%char /\ p1 = "f"%char /\ p2 = "o"%char
            /\ p3 = "r"%char /\ p4 = "/"%char) as (-> & -> & -> & -> & ->)
      by (repeat split; congruence).
    cbn [Py.str string_of_list_ascii] in Hhead.
    rewrite !prefix_cons in Hhead. simpl in Hhead.
    rewrite prefix_empty in Hhead. discriminate.
Qed.

Lemma date_at_link (y1 y2 y3 y4 : ascii) (m d tail : list ascii) :
  all_digits [y1; y2; y3; y4] = true ->
  one_or_two_digits m = true ->
  one_or_two_digits d = true ->
  date_at (date_link y1 y2 y3 y4 m d tail) = Some ([y1; y2; y3; y4], m, d).
Proof.
  intros Hy Hm Hd. unfold one_or_two_digits in Hm, Hd.
  apply andb_prop in Hm. destruct Hm as [Hm Hlm].
  apply andb_prop in Hd. destruct Hd as [Hd Hld].
  assert (Hslash : Py.is_digit "/" = false) by reflexivity.
  destruct m as [| m1 [| m2 [| m3 m]]]; try discriminate;
    destruct d as [| d1 [| d2 [| d3 d]]]; try discriminate;
    unfold all_digits in Hm, Hd; simpl in Hm, Hd;
    repeat match goal with
           | H : _ && _ = true |- _ => apply andb_prop in H; destruct H
           end;
    unfold date_link, date_at, drop_prefix;
    cbn [Py.chars list_ascii_of_string app Py.str string_of_list_ascii];
    rewrite !prefix_cons, prefix_empty;
    cbn [ascii_dec];
    repeat match goal with
           | |- context [ascii_dec ?a ?a] =>
               destruct (ascii_dec a a) as [_ | Hne]; [| contradiction]
           end;
    cbn [String.length skipn]; rewrite Hy;
    cbn [Ascii.eqb Bool.eqb andb digits_1_2];
    repeat match goal with
           | H : Py.is_digit ?c = true |- context [Py.is_digit ?c] => rewrite H
           end;
    rewrite ?Hslash; cbn [filter snd Ascii.eqb Bool.eqb andb digits_1_2];
    repeat match goal with
           | H : Py.is_digit ?c = true |- context [Py.is_digit ?c] => rewrite H
           end;
    rewrite ?Hslash; try reflexivity.
Qed.

(** X20. The date of a row is read after the first [/for/] of its day link:
    a link that has there a year of four digits, a month and a day of one or
    two digits and a slash after each gives the date of these numbers when
    it is a date of the calendar, and no date otherwise. *)
Theorem watched_date_of_link (row day_link : PageElement) (pre : list ascii)
    (y1 y2 y3 y4 : ascii) (m d tail : list ascii) :
  Soup.select_one row daydate_selector = Some day_link ->
  Soup.get day_link "href" = Some (Py.str (pre ++ date_link y1 y2 y3 y4 m d tail)) ->
  Py.contains (Py.str pre) "/for/" = false ->
  all_digits [y1; y2; y3; y4] = true ->
  one_or_two_digits m = true ->
  one_or_two_digits d = true ->
  _extract_watched_date row
  = Datetime.make (Py.digits_value [y1; y2; y3; y4]) (Py.digits_value m)
                  (Py.digits_value d).
Proof.
  intros Hsel Hhref Hfree Hy Hm Hd.
  unfold _extract_watched_date. rewrite Hsel.
  unfold Soup.get_default. rewrite Hhref, chars_str.
  assert (Hy1 : Py.is_digit y1 = true).
  { unfold all_digits in Hy. simpl in Hy. apply andb_prop in Hy. tauto. }
  assert (Hs : date_search (pre ++ date_link y1 y2 y3 y4 m d tail)
               = Some ([y1; y2; y3; y4], m, d)).
  { pose proof (date_at_link y1 y2 y3 y4 m d tail Hy Hm Hd) as Hat.
    unfold date_link in *. cbn [Py.chars list_ascii_of_string app] in *.
    rewrite (date_search_skips pre y1 _ Hfree Hy1).
    cbn [date_search]. rewrite Hat. reflexivity. }
  rewrite Hs. reflexivity.
Qed.

Lemma watched_date_of_link_witness :
  _extract_watched_date (SampleRow.row ["rating"] ["col-rewatch"])
  = Some (Datetime.Date 2025 12 26).
Proof.
  exact (watched_date_of_link (SampleRow.row ["rating"] ["col-rewatch"])
           (Tag "a" (Some ["daydate"])
                [("href", "/someone/diary/films/for/2025/12/26/")] [])
           (Py.chars "/someone/diary/films") "2" "0" "2" "5"
           (Py.chars "12") (Py.chars "26") []
           eq_refl eq_refl eq_refl eq_refl eq_refl eq_refl).
Defined.

(** ** The addresses of the settings *)

Lemma getenv_or_cases (environ : Environ) (key default : string) :
  (forall v, environ key = Some v -> v <> "" -> getenv_or environ key default = v)
  /\ (environ key = None \/ environ key = Some "" ->
      getenv_or environ key default = default)
  /\ (default <> "" -> getenv_or environ key default <> "").
Proof.
  unfold getenv_or. destruct (environ key) as [v |].
  - destruct (String.eqb_spec v "") as [-> | Hne]; repeat split; auto.
    + intros v Hv Hne. inversion Hv; subst. contradiction.
    + intros v' Hv _. inversion Hv; subst. reflexivity.
    + intros [H | H]; [discriminate | congruence].
  - repeat split; auto. intros v Hv. discriminate.
Qed.

(** X21. The diary address of the settings is the value of the environment
    variable [LETTERBOXD_DIARY_URL] when it is set and not empty, and
    otherwise [https://letterboxd.com/<username>/diary/]: an empty value is
    passed over, and the address is never empty.  The same holds of the feed
    address with [LETTERBOXD_RSS_URL] and [/rss/]. *)
Theorem settings_urls (environ : Environ) (self : Settings) :
  (forall v, environ "LETTERBOXD_DIARY_URL" = Some v -> v <> "" ->
             letterboxd_diary_url environ self = v)
  /\ (environ "LETTERBOXD_DIARY_URL" = None \/ environ "LETTERBOXD_DIARY_URL" = Some "" ->
      letterboxd_diary_url environ self
      = "https://letterboxd.com/" ++ letterboxd_username self ++ "/diary/")
  /\ letterboxd_diary_url environ self <> ""
  /\ (forall v, environ "LETTERBOXD_RSS_URL" = Some v -> v <> "" ->
                letterboxd_rss_url environ self = v)
  /\ (environ "LETTERBOXD_RSS_URL" = None \/ environ "LETTERBOXD_RSS_URL" = Some "" ->
      letterboxd_rss_url environ self
      = "https://letterboxd.com/" ++ letterboxd_username self ++ "/rss/")
  /\ letterboxd_rss_url environ self <> "".
Proof.
  unfold letterboxd_diary_url, letterboxd_rss_url.
  destruct (getenv_or_cases environ "LETTERBOXD_DIARY_URL"
              ("https://letterboxd.com/" ++ letterboxd_username self ++ "/diary/"))
    as (Hd1 & Hd2 & Hd3).
  destruct (getenv_or_cases environ "LETTERBOXD_RSS_URL"
              ("https://letterboxd.com/" ++ letterboxd_username self ++ "/rss/"))
    as (Hr1 & Hr2 & Hr3).
  repeat split; auto.
  - apply Hd3. discriminate.
  - apply Hr3. discriminate.
Qed.
